(** * hasura-storage, package [migrations]: applying the Hasura metadata

    A shallow embedding of [migrations/hasura.go].  The two functions of the
    file, [postMetadata] and [ApplyHasuraMetadata], are written in a small
    state monad over the remote endpoint, the trace of requests handed to
    the HTTP client and the warnings handed to the logger.  The parts of
    Go's standard library the code calls ([encoding/json], [unicode/utf8],
    [strconv], [fmt], [net/http]) are modelled in modules of their own. *)

From Stdlib Require Import String Ascii List ZArith NArith Bool Lia.
From Stdlib Require Import Permutation Sorted DecimalString OrderedTypeEx.
Import ListNotations.

Local Open Scope string_scope.

(* ================================================================= *)
(** * Go values shared by every package *)

(** A Go [string] and a Go [[]byte] are both sequences of bytes; [ascii]
    is the eight-bit byte. *)
Definition byte := ascii.

Definition b2n (c : byte) : N := N_of_ascii c.
Definition n2b (n : N) : byte := ascii_of_N n.

(** [c] lies in the closed byte range [lo..hi]. *)
Definition between (lo hi : N) (c : byte) : bool :=
  (N.leb lo (b2n c) && N.leb (b2n c) hi)%bool.

(** A slice is [nil] or a (possibly empty) sequence; [encoding/json] tells
    the two apart.  The same holds for maps. *)
Inductive slice (A : Type) : Type :=
| nil_slice
| mk_slice (elems : list A).
Arguments nil_slice {A}.
Arguments mk_slice {A} elems.

(** A Go [map[string]string].  The list is the order in which one
    particular iteration ([range], [reflect.MapRange]) walks the entries:
    Go leaves that order unspecified, so two lists with the same entries
    in a different order stand for the same map.  Keys are distinct. *)
Inductive gomap : Type :=
| nil_map
| mk_map (entries : list (string * string)).

(** The [error] interface: a message, and for [fmt.Errorf] with [%w] the
    wrapped cause.  A nil [error] is [None] of [option error]. *)
Inductive error : Type :=
| errorString (msg : string)
| wrapError (msg : string) (cause : error).

Definition error_Error (e : error) : string :=
  match e with
  | errorString m => m
  | wrapError m _ => m
  end.

Definition Unwrap (e : error) : option error :=
  match e with
  | errorString _ => None
  | wrapError _ c => Some c
  end.

(** [strings.Contains s sub] as a proposition. *)
Definition Contains (s sub : string) : Prop :=
  exists pre post, s = pre ++ sub ++ post.

(* ================================================================= *)
(** * strconv and fmt *)

Module strconv.

(** [strconv.Itoa]: decimal digits, a leading minus sign for negatives. *)
Definition Itoa (i : Z) : string :=
  NilZero.string_of_int (Z.to_int i).

End strconv.

Module fmt.

(** [fmt.Errorf(prefix + ": %w", err)]. *)
Definition Errorf_w (prefix : string) (err : error) : error :=
  wrapError (prefix ++ ": " ++ error_Error err) err.

(** [fmt.Sprintf(prefix + ": %s", err)] for an [error] operand: [%s]
    prints [err.Error()]. *)
Definition Sprintf_s (prefix : string) (err : error) : string :=
  prefix ++ ": " ++ error_Error err.

End fmt.

(* ================================================================= *)
(** * unicode/utf8 *)

Module utf8.

Local Open Scope N_scope.

Definition RuneError : N := 65533.   (* U+FFFD *)

(** [utf8.DecodeRuneInString]: the first rune of [s] and its width in
    bytes; an invalid or truncated encoding is [(RuneError, 1)]. *)
Definition DecodeRuneInString (s : string) : N * nat :=
  match s with
  | EmptyString => (RuneError, 0%nat)
  | String s0 t =>
    let x0 := b2n s0 in
    if N.ltb x0 128 then (x0, 1%nat)
    else
      (* size of the encoding and accepted range of the second byte *)
      let shape : option (nat * N * N) :=
        if between 194 223 s0 then Some (2%nat, 128, 191)
        else if N.eqb x0 224 then Some (3%nat, 160, 191)
        else if between 225 236 s0 then Some (3%nat, 128, 191)
        else if N.eqb x0 237 then Some (3%nat, 128, 159)
        else if between 238 239 s0 then Some (3%nat, 128, 191)
        else if N.eqb x0 240 then Some (4%nat, 144, 191)
        else if between 241 243 s0 then Some (4%nat, 128, 191)
        else if N.eqb x0 244 then Some (4%nat, 128, 143)
        else None in
      match shape with
      | None => (RuneError, 1%nat)
      | Some (sz, lo, hi) =>
        match t with
        | EmptyString => (RuneError, 1%nat)
        | String s1 t1 =>
          if negb (between lo hi s1) then (RuneError, 1%nat)
          else if Nat.leb sz 2 then
            (N.lor (N.shiftl (N.land x0 31) 6) (N.land (b2n s1) 63), 2%nat)
          else
            match t1 with
            | EmptyString => (RuneError, 1%nat)
            | String s2 t2 =>
              if negb (between 128 191 s2) then (RuneError, 1%nat)
              else if Nat.leb sz 3 then
                (N.lor (N.shiftl (N.land x0 15) 12)
                   (N.lor (N.shiftl (N.land (b2n s1) 63) 6)
                          (N.land (b2n s2) 63)), 3%nat)
              else
                match t2 with
                | EmptyString => (RuneError, 1%nat)
                | String s3 _ =>
                  if negb (between 128 191 s3) then (RuneError, 1%nat)
                  else
                    (N.lor (N.shiftl (N.land x0 7) 18)
                       (N.lor (N.shiftl (N.land (b2n s1) 63) 12)
                          (N.lor (N.shiftl (N.land (b2n s2) 63) 6)
                                 (N.land (b2n s3) 63))), 4%nat)
                end
            end
        end
      end
  end.

(** [utf8.AppendRune] on an empty buffer: the encoding of [r]; runes out
    of range and surrogates are written as U+FFFD. *)
Definition EncodeRune (r : N) : string :=
  let cont (v : N) : byte := n2b (N.lor 128 (N.land v 63)) in
  let bad := String (n2b 239) (String (n2b 191) (String (n2b 189) "")) in
  if N.leb r 127 then String (n2b r) ""
  else if N.leb r 2047 then
    String (n2b (N.lor 192 (N.shiftr r 6))) (String (cont r) "")
  else if (N.ltb 1114111 r || (N.leb 55296 r && N.leb r 57343))%bool then bad
  else if N.leb r 65535 then
    String (n2b (N.lor 224 (N.shiftr r 12)))
      (String (cont (N.shiftr r 6)) (String (cont r) ""))
  else
    String (n2b (N.lor 240 (N.shiftr r 18)))
      (String (cont (N.shiftr r 12))
         (String (cont (N.shiftr r 6)) (String (cont r) ""))).

End utf8.

(* ================================================================= *)
(** * Bytes that a Rocq string literal cannot hold *)

Definition dquote : byte := n2b 34.
Definition newline : byte := n2b 10.

(** JSON texts are written below with ['] in place of the double quote;
    [q] puts the double quotes back. *)
Fixpoint q (s : string) : string :=
  match s with
  | EmptyString => EmptyString
  | String c t => String (if Ascii.eqb c "'" then dquote else c) (q t)
  end.

(* ================================================================= *)
(** * encoding/json: the encoder *)

Module json.

Local Open Scope N_scope.

(** [htmlSafeSet]: the ASCII bytes written as they are when HTML
    escaping is on, which is [json.Marshal]'s setting. *)
Definition htmlSafeSet (c : byte) : bool :=
  (between 32 127 c
   && negb (N.eqb (b2n c) 34)     (* double quote *)
   && negb (N.eqb (b2n c) 38)     (* & *)
   && negb (N.eqb (b2n c) 60)     (* < *)
   && negb (N.eqb (b2n c) 62)     (* > *)
   && negb (N.eqb (b2n c) 92))%bool.  (* backslash *)

Definition hex (n : N) : byte :=
  match String.get (N.to_nat n) "0123456789abcdef" with
  | Some c => c
  | None => "0"%char
  end.

(** The escape written for an ASCII byte outside [htmlSafeSet].  (Go
    releases before 1.22 write the backspace and the form feed as
    [\u0008] and [\u000c]; no text of this package holds either.) *)
Definition escapeByte (c : byte) : string :=
  let b := b2n c in
  if (N.eqb b 92 || N.eqb b 34)%bool then String "\" (String c "")
  else if N.eqb b 8 then "\b"
  else if N.eqb b 12 then "\f"
  else if N.eqb b 10 then "\n"
  else if N.eqb b 13 then "\r"
  else if N.eqb b 9 then "\t"
  else "\u00" ++ String (hex (N.shiftr b 4)) (String (hex (N.land b 15)) "").

(** The loop of [appendString] between the two quotes.  [skip] counts
    the bytes still to pass of a rune already decoded, copied when
    [copy] is set and dropped otherwise. *)
Fixpoint appendStringBody (skip : nat) (copy : bool) (s : string) : string :=
  match s with
  | EmptyString => EmptyString
  | String c rest =>
    match skip with
    | S k =>
      if copy then String c (appendStringBody k copy rest)
      else appendStringBody k copy rest
    | O =>
      if N.ltb (b2n c) 128 then
        if htmlSafeSet c then String c (appendStringBody 0 true rest)
        else (escapeByte c ++ appendStringBody 0 true rest)%string
      else
        let '(r, size) := utf8.DecodeRuneInString s in
        if (N.eqb r utf8.RuneError && Nat.eqb size 1)%bool then
          ("\ufffd" ++ appendStringBody 0 true rest)%string
        else if (N.eqb r 8232 || N.eqb r 8233)%bool then
          ("\u202" ++ String (hex (N.land r 15))
                        (appendStringBody (size - 1) false rest))%string
        else String c (appendStringBody (size - 1) true rest)
    end
  end.

(** [appendString(nil, src, true)]: a JSON string literal. *)
Definition appendString (src : string) : string :=
  String dquote (appendStringBody 0 true src ++ String dquote "").

(** Values separated by commas. *)
Fixpoint commaSep (l : list string) : string :=
  match l with
  | [] => ""
  | [x] => x
  | x :: t => x ++ "," ++ commaSep t
  end.

(** [structEncoder]: the fields in declaration order, each as its tag
    name and its encoded value. *)
Definition object (fields : list (string * string)) : string :=
  "{" ++ commaSep (map (fun f => String dquote (fst f ++ String dquote ":") ++ snd f)
                       fields) ++ "}".

(** [sliceEncoder] over [[]string]: [null] for a nil slice. *)
Definition stringSlice (s : slice string) : string :=
  match s with
  | nil_slice => "null"
  | mk_slice l => "[" ++ commaSep (map appendString l) ++ "]"
  end.

(** The order [mapEncoder] sorts the keys by: [strings.Compare], byte
    by byte. *)
Definition keyLt (a b : string * string) : bool :=
  match String.compare (fst a) (fst b) with
  | Lt => true
  | _ => false
  end.

Fixpoint insertEntry (e : string * string) (l : list (string * string))
  : list (string * string) :=
  match l with
  | [] => [e]
  | h :: t => if keyLt h e then h :: insertEntry e t else e :: l
  end.

(** [slices.SortFunc] on the entries collected from the map. *)
Fixpoint sortEntries (l : list (string * string)) : list (string * string) :=
  match l with
  | [] => []
  | h :: t => insertEntry h (sortEntries t)
  end.

(** [mapEncoder] over [map[string]string]: [null] for a nil map, the
    entries in key order otherwise. *)
Definition stringMap (m : gomap) : string :=
  match m with
  | nil_map => "null"
  | mk_map entries =>
    "{" ++ commaSep (map (fun e => appendString (fst e) ++ ":" ++ appendString (snd e))
                         (sortEntries entries)) ++ "}"
  end.

(** ** The decoder: scanner.go *)

Inductive parseState : Type :=
| parseObjectKey | parseObjectValue | parseArrayValue.

(** The state functions of the scanner, as an enumeration. *)
Inductive stepState : Type :=
| stateBeginValueOrEmpty | stateBeginValue
| stateBeginStringOrEmpty | stateBeginString
| stateEndValue | stateEndTop
| stateInString | stateInStringEsc
| stateInStringEscU | stateInStringEscU1 | stateInStringEscU12
| stateInStringEscU123
| stateNeg | state1 | state0 | stateDot | stateDot0
| stateE | stateESign | stateE0
| stateT | stateTr | stateTru
| stateF | stateFa | stateFal | stateFals
| stateN | stateNu | stateNul
| stateError.

(** [scanner]: the next state function, whether the top-level value has
    ended, the stack of open objects and arrays (innermost first) and
    whether an error was recorded. *)
Record scanner := mkScanner {
  step : stepState;
  endTop : bool;
  parseStack : list parseState;
  err : bool
}.

Definition maxNestingDepth : N := 10000.

Definition reset : scanner :=
  mkScanner stateBeginValue false [] false.

Definition setStep (s : scanner) (st : stepState) : scanner :=
  mkScanner st (endTop s) (parseStack s) (err s).

(** [s.error(c, context)]. *)
Definition scanError (s : scanner) : scanner :=
  mkScanner stateError (endTop s) (parseStack s) true.

Definition pushParseState (s : scanner) (p : parseState) (next : stepState)
  : scanner :=
  let s' := mkScanner next (endTop s) (p :: parseStack s) (err s) in
  if N.leb (N.of_nat (List.length (parseStack s'))) maxNestingDepth then s'
  else scanError s'.

Definition popParseState (s : scanner) : scanner :=
  match parseStack s with
  | [] => s
  | [_] => mkScanner stateEndTop true [] (err s)
  | _ :: rest => mkScanner stateEndValue (endTop s) rest (err s)
  end.

(** Replace the innermost parse state. *)
Definition setTop (s : scanner) (p : parseState) : scanner :=
  match parseStack s with
  | [] => s
  | _ :: rest => mkScanner (step s) (endTop s) (p :: rest) (err s)
  end.

Definition isSpace (c : byte) : bool :=
  let b := b2n c in
  (N.eqb b 32 || N.eqb b 9 || N.eqb b 13 || N.eqb b 10)%bool.

Definition isDigit (c : byte) : bool := between 48 57 c.
Definition isDigit19 (c : byte) : bool := between 49 57 c.
Definition isHex (c : byte) : bool :=
  (between 48 57 c || between 97 102 c || between 65 70 c)%bool.
Definition isByte (ch : ascii) (c : byte) : bool := Ascii.eqb c ch.
Definition isQuote (c : byte) : bool := N.eqb (b2n c) 34.

Definition doEndTop (s : scanner) (c : byte) : scanner :=
  if isSpace c then s else scanError s.

Definition doEndValue (s : scanner) (c : byte) : scanner :=
  match parseStack s with
  | [] => doEndTop (mkScanner stateEndTop true [] (err s)) c
  | ps :: _ =>
    if isSpace c then setStep s stateEndValue
    else match ps with
         | parseObjectKey =>
           if isByte ":" c then setStep (setTop s parseObjectValue) stateBeginValue
           else scanError s
         | parseObjectValue =>
           if isByte "," c then setStep (setTop s parseObjectKey) stateBeginString
           else if isByte "}" c then popParseState s
           else scanError s
         | parseArrayValue =>
           if isByte "," c then setStep s stateBeginValue
           else if isByte "]" c then popParseState s
           else scanError s
         end
  end.

Definition doBeginValue (s : scanner) (c : byte) : scanner :=
  if isSpace c then s
  else if isByte "{" c then pushParseState s parseObjectKey stateBeginStringOrEmpty
  else if isByte "[" c then pushParseState s parseArrayValue stateBeginValueOrEmpty
  else if isQuote c then setStep s stateInString
  else if isByte "-" c then setStep s stateNeg
  else if isByte "0" c then setStep s state0
  else if isByte "t" c then setStep s stateT
  else if isByte "f" c then setStep s stateF
  else if isByte "n" c then setStep s stateN
  else if isDigit19 c then setStep s state1
  else scanError s.

Definition doBeginValueOrEmpty (s : scanner) (c : byte) : scanner :=
  if isSpace c then s
  else if isByte "]" c then doEndValue s c
  else doBeginValue s c.

Definition doBeginString (s : scanner) (c : byte) : scanner :=
  if isSpace c then s
  else if isQuote c then setStep s stateInString
  else scanError s.

Definition doBeginStringOrEmpty (s : scanner) (c : byte) : scanner :=
  if isSpace c then s
  else if isByte "}" c then doEndValue (setTop s parseObjectValue) c
  else doBeginString s c.

Definition doInString (s : scanner) (c : byte) : scanner :=
  if isQuote c then setStep s stateEndValue
  else if isByte "\" c then setStep s stateInStringEsc
  else if N.ltb (b2n c) 32 then scanError s
  else s.

Definition doInStringEsc (s : scanner) (c : byte) : scanner :=
  if (isByte "b" c || isByte "f" c || isByte "n" c || isByte "r" c || isByte "t" c
      || isByte "\" c || isByte "/" c || isQuote c)%bool
  then setStep s stateInString
  else if isByte "u" c then setStep s stateInStringEscU
  else scanError s.

Definition doHex (next : stepState) (s : scanner) (c : byte) : scanner :=
  if isHex c then setStep s next else scanError s.

Definition do0 (s : scanner) (c : byte) : scanner :=
  if isByte "." c then setStep s stateDot
  else if (isByte "e" c || isByte "E" c)%bool then setStep s stateE
  else doEndValue s c.

Definition do1 (s : scanner) (c : byte) : scanner :=
  if isDigit c then setStep s state1 else do0 s c.

Definition doNeg (s : scanner) (c : byte) : scanner :=
  if isByte "0" c then setStep s state0
  else if isDigit19 c then setStep s state1
  else scanError s.

Definition doDot (s : scanner) (c : byte) : scanner :=
  if isDigit c then setStep s stateDot0 else scanError s.

Definition doDot0 (s : scanner) (c : byte) : scanner :=
  if isDigit c then s
  else if (isByte "e" c || isByte "E" c)%bool then setStep s stateE
  else doEndValue s c.

Definition doESign (s : scanner) (c : byte) : scanner :=
  if isDigit c then setStep s stateE0 else scanError s.

Definition doE (s : scanner) (c : byte) : scanner :=
  if (isByte "+" c || isByte "-" c)%bool then setStep s stateESign
  else doESign s c.

Definition doE0 (s : scanner) (c : byte) : scanner :=
  if isDigit c then s else doEndValue s c.

(** One letter of [true], [false] or [null]. *)
Definition doLetter (ch : ascii) (next : stepState) (s : scanner) (c : byte)
  : scanner :=
  if isByte ch c then setStep s next else scanError s.

(** [s.step(s, c)]. *)
Definition scanStep (s : scanner) (c : byte) : scanner :=
  match step s with
  | stateBeginValueOrEmpty => doBeginValueOrEmpty s c
  | stateBeginValue => doBeginValue s c
  | stateBeginStringOrEmpty => doBeginStringOrEmpty s c
  | stateBeginString => doBeginString s c
  | stateEndValue => doEndValue s c
  | stateEndTop => doEndTop s c
  | stateInString => doInString s c
  | stateInStringEsc => doInStringEsc s c
  | stateInStringEscU => doHex stateInStringEscU1 s c
  | stateInStringEscU1 => doHex stateInStringEscU12 s c
  | stateInStringEscU12 => doHex stateInStringEscU123 s c
  | stateInStringEscU123 => doHex stateInString s c
  | stateNeg => doNeg s c
  | state1 => do1 s c
  | state0 => do0 s c
  | stateDot => doDot s c
  | stateDot0 => doDot0 s c
  | stateE => doE s c
  | stateESign => doESign s c
  | stateE0 => doE0 s c
  | stateT => doLetter "r" stateTr s c
  | stateTr => doLetter "u" stateTru s c
  | stateTru => doLetter "e" stateEndValue s c
  | stateF => doLetter "a" stateFa s c
  | stateFa => doLetter "l" stateFal s c
  | stateFal => doLetter "s" stateFals s c
  | stateFals => doLetter "e" stateEndValue s c
  | stateN => doLetter "u" stateNu s c
  | stateNu => doLetter "l" stateNul s c
  | stateNul => doLetter "l" stateEndValue s c
  | stateError => scanError s
  end.

(** The loop of [checkValid]: it stops at the first recorded error. *)
Fixpoint scanAll (s : scanner) (data : string) : scanner :=
  match data with
  | EmptyString => s
  | String c rest =>
    let s' := scanStep s c in
    if err s' then s' else scanAll s' rest
  end.

(** [s.eof()]: true when the text ends in a complete value. *)
Definition eofOk (s : scanner) : bool :=
  if err s then false
  else if endTop s then true
  else endTop (scanStep s " "%char).

(** [checkValid(data, scan) == nil]. *)
Definition checkValid (data : string) : bool :=
  eofOk (scanAll reset data).


(** ** The decoder: decode.go, run on a text [checkValid] accepted *)

Inductive token : Type :=
| TBeginObject | TEndObject | TBeginArray | TEndArray | TColon | TComma
| TString (raw : string)      (* the bytes between the two quotes *)
| TLiteral (raw : string).    (* a number, [true], [false] or [null] *)

Fixpoint revAppend (acc s : string) : string :=
  match acc with
  | EmptyString => s
  | String c t => revAppend t (String c s)
  end.

(** Where the reader stands: between tokens, in a string (bytes so far
    in reverse, and whether the last byte was an unpaired backslash) or
    in a literal. *)
Inductive lexMode : Type :=
| Outside
| InStr (acc : string) (esc : bool)
| InLit (acc : string).

Definition punct (c : byte) : option token :=
  if isByte "{" c then Some TBeginObject
  else if isByte "}" c then Some TEndObject
  else if isByte "[" c then Some TBeginArray
  else if isByte "]" c then Some TEndArray
  else if isByte ":" c then Some TColon
  else if isByte "," c then Some TComma
  else None.

Fixpoint tokens (m : lexMode) (data : string) : list token :=
  match data with
  | EmptyString =>
    match m with
    | InLit acc => [TLiteral (revAppend acc "")]
    | _ => []
    end
  | String c rest =>
    match m with
    | InStr acc true => tokens (InStr (String c acc) false) rest
    | InStr acc false =>
      if isQuote c then TString (revAppend acc "") :: tokens Outside rest
      else tokens (InStr (String c acc) (isByte "\" c)) rest
    | InLit acc =>
      if isSpace c then TLiteral (revAppend acc "") :: tokens Outside rest
      else match punct c with
           | Some t => TLiteral (revAppend acc "") :: t :: tokens Outside rest
           | None => tokens (InLit (String c acc)) rest
           end
    | Outside =>
      if isSpace c then tokens Outside rest
      else if isQuote c then tokens (InStr "" false) rest
      else match punct c with
           | Some t => t :: tokens Outside rest
           | None => tokens (InLit (String c "")) rest
           end
    end
  end.

Definition hexVal (c : byte) : option N :=
  if between 48 57 c then Some (b2n c - 48)
  else if between 97 102 c then Some (b2n c - 97 + 10)
  else if between 65 70 c then Some (b2n c - 65 + 10)
  else None.

(** [getu4]: the code unit of a [\uXXXX] at the head of [s], if any. *)
Definition getu4 (s : string) : option N :=
  match s with
  | String b (String u (String h1 (String h2 (String h3 (String h4 _))))) =>
    if (isByte "\" b && isByte "u" u)%bool then
      match hexVal h1, hexVal h2, hexVal h3, hexVal h4 with
      | Some a, Some b', Some c, Some d => Some (((a * 16 + b') * 16 + c) * 16 + d)
      | _, _, _, _ => None
      end
    else None
  | _ => None
  end.

(** [utf16.IsSurrogate]. *)
Definition IsSurrogate (r : N) : bool := (N.leb 55296 r && N.ltb r 57344)%bool.

(** [utf16.DecodeRune], [None] standing for U+FFFD. *)
Definition utf16_DecodeRune (r1 : N) (r2 : option N) : option N :=
  match r2 with
  | Some r2 =>
    if (N.leb 55296 r1 && N.ltb r1 56320 && N.leb 56320 r2 && N.ltb r2 57344)%bool
    then Some (N.lor (N.shiftl (r1 - 55296) 10) (r2 - 56320) + 65536)
    else None
  | None => None
  end.

(** The byte a one-letter escape stands for. *)
Definition unescape (e : byte) : byte :=
  if isByte "b" e then n2b 8
  else if isByte "f" e then n2b 12
  else if isByte "n" e then n2b 10
  else if isByte "r" e then n2b 13
  else if isByte "t" e then n2b 9
  else e.

(** [unquoteBytes] on the bytes between the quotes: escapes are
    replaced and the text is coerced to well-formed UTF-8.  [skip]
    counts the bytes still to copy of a rune already decoded. *)
Fixpoint unquote (skip : nat) (s : string) : string :=
  match s with
  | EmptyString => EmptyString
  | String c rest =>
    match skip with
    | S k => String c (unquote k rest)
    | O =>
      if isByte "\" c then
        match rest with
        | EmptyString => EmptyString
        | String e rest1 =>
          if isByte "u" e then
            match rest1 with
            | String _ (String _ (String _ (String _ rest2))) =>
              match getu4 s with
              | None => EmptyString
              | Some rr =>
                if IsSurrogate rr then
                  match rest2 with
                  | String _ (String _ (String _ (String _
                      (String _ (String _ rest3))))) =>
                    match utf16_DecodeRune rr (getu4 rest2) with
                    | Some dec => (utf8.EncodeRune dec ++ unquote 0 rest3)%string
                    | None =>
                      (utf8.EncodeRune utf8.RuneError ++ unquote 0 rest2)%string
                    end
                  | _ => (utf8.EncodeRune utf8.RuneError ++ unquote 0 rest2)%string
                  end
                else (utf8.EncodeRune rr ++ unquote 0 rest2)%string
              end
            | _ => EmptyString
            end
          else String (unescape e) (unquote 0 rest1)
        end
      else if N.ltb (b2n c) 128 then String c (unquote 0 rest)
      else
        let '(rr, size) := utf8.DecodeRuneInString s in
        if (N.eqb rr utf8.RuneError && Nat.eqb size 1)%bool then
          (utf8.EncodeRune utf8.RuneError ++ unquote 0 rest)%string
        else String c (unquote (size - 1) rest)
    end
  end.

(** What the struct decoder asks of a member's value: a string (already
    unquoted), [null], or a value of another kind. *)
Inductive value : Type :=
| VString (s : string)
| VNull
| VOther.

(** The top-level value as far as a pointer to a struct of strings
    needs it. *)
Inductive toplevel : Type :=
| TopNull
| TopObject (members : list (string * value))
| TopOther.

Definition literalValue (raw : string) : value :=
  match raw with
  | String c _ => if isByte "n" c then VNull else VOther
  | EmptyString => VOther
  end.

(** The position of [d.object] in the top-level object; [WSkip d] is
    inside a nested value, [d] levels below the member. *)
Inductive walk : Type :=
| WKey
| WColon (k : string)
| WValue (k : string)
| WSkip (depth : nat)
| WNext.

Fixpoint members (st : walk) (ts : list token) : list (string * value) :=
  match ts with
  | [] => []
  | t :: rest =>
    match st, t with
    | WKey, TString raw => members (WColon (unquote 0 raw)) rest
    | WColon k, TColon => members (WValue k) rest
    | WValue k, TString raw => (k, VString (unquote 0 raw)) :: members WNext rest
    | WValue k, TLiteral raw => (k, literalValue raw) :: members WNext rest
    | WValue k, TBeginObject => (k, VOther) :: members (WSkip 0) rest
    | WValue k, TBeginArray => (k, VOther) :: members (WSkip 0) rest
    | WSkip d, TBeginObject => members (WSkip (S d)) rest
    | WSkip d, TBeginArray => members (WSkip (S d)) rest
    | WSkip (S d), TEndObject => members (WSkip d) rest
    | WSkip (S d), TEndArray => members (WSkip d) rest
    | WSkip O, TEndObject => members WNext rest
    | WSkip O, TEndArray => members WNext rest
    | WSkip d, _ => members (WSkip d) rest
    | WNext, TComma => members WKey rest
    | _, _ => []
    end
  end.

Definition decodeTop (data : string) : toplevel :=
  match tokens Outside data with
  | TBeginObject :: rest => TopObject (members WKey rest)
  | TLiteral raw :: _ =>
    match literalValue raw with
    | VNull => TopNull
    | _ => TopOther
    end
  | _ => TopOther
  end.

(** Field names match keys without regard to ASCII case; for names
    without [k] and [s], such as [path], [error] and [code], that is all
    of the decoder's folding. *)
Definition upper (c : byte) : byte :=
  if between 97 122 c then n2b (b2n c - 32) else c.

Fixpoint equalFold (a b : string) : bool :=
  match a, b with
  | EmptyString, EmptyString => true
  | String x a', String y b' => (Ascii.eqb (upper x) (upper y) && equalFold a' b')%bool
  | _, _ => false
  end.

Definition SyntaxError : error := errorString "json: syntax error".
Definition UnmarshalTypeError : error :=
  errorString "json: cannot unmarshal into Go value".


End json.

(* ================================================================= *)
(** * The request bodies of migrations/hasura.go *)

Record Table := {
  Table_Schema : string;
  Table_Name : string
}.

Record CustomRootFields := {
  Select : string;
  SelectByPk : string;
  SelectAggregate : string;
  Insert : string;
  InsertOne : string;
  Update : string;
  UpdateByPk : string;
  Delete : string;
  DeleteByPk : string
}.

Record Configuration := {
  CustomName : string;
  CustomRootFields_ : CustomRootFields;
  CustomColumnNames : gomap
}.

Record PgTrackTableArgs := {
  PgTrackTableArgs_Source : string;
  PgTrackTableArgs_Table : Table;
  PgTrackTableArgs_Configuration : Configuration
}.

Record TrackTable := {
  TrackTable_Type : string;
  TrackTable_Args : PgTrackTableArgs
}.

Record CreateObjectRelationshipUsing := {
  ObjectUsing_ForeignKeyConstraintOn : slice string
}.

Record CreateObjectRelationshipArgs := {
  ObjectArgs_Table : Table;
  ObjectArgs_Name : string;
  ObjectArgs_Source : string;
  ObjectArgs_Using : CreateObjectRelationshipUsing
}.

Record CreateObjectRelationship := {
  CreateObjectRelationship_Type : string;
  CreateObjectRelationship_Args : CreateObjectRelationshipArgs
}.

Record ForeignKeyConstraintOn := {
  ForeignKeyConstraintOn_Table : Table;
  ForeignKeyConstraintOn_Columns : slice string
}.

Record CreateArrayRelationshipUsing := {
  ArrayUsing_ForeignKeyConstraintOn : ForeignKeyConstraintOn
}.

Record CreateArrayRelationshipArgs := {
  ArrayArgs_Table : Table;
  ArrayArgs_Name : string;
  ArrayArgs_Source : string;
  ArrayArgs_Using : CreateArrayRelationshipUsing
}.

Record CreateArrayRelationship := {
  CreateArrayRelationship_Type : string;
  CreateArrayRelationship_Args : CreateArrayRelationshipArgs
}.

(** The [data interface{}] argument of [postMetadata]: the three struct
    types [ApplyHasuraMetadata] passes. *)
Inductive Operation : Type :=
| OpTrackTable (t : TrackTable)
| OpCreateObjectRelationship (r : CreateObjectRelationship)
| OpCreateArrayRelationship (r : CreateArrayRelationship).

(** ** json.Marshal on these types, field by field after the struct tags *)

Module Marshal.

Import json.

Definition table (t : Table) : string :=
  object [("schema", appendString (Table_Schema t));
          ("name", appendString (Table_Name t))].

Definition customRootFields (f : CustomRootFields) : string :=
  object [("select", appendString (Select f));
          ("select_by_pk", appendString (SelectByPk f));
          ("select_aggregate", appendString (SelectAggregate f));
          ("insert", appendString (Insert f));
          ("insert_one", appendString (InsertOne f));
          ("update", appendString (Update f));
          ("update_by_pk", appendString (UpdateByPk f));
          ("delete", appendString (Delete f));
          ("delete_by_pk", appendString (DeleteByPk f))].

Definition configuration (c : Configuration) : string :=
  object [("custom_name", appendString (CustomName c));
          ("custom_root_fields", customRootFields (CustomRootFields_ c));
          ("custom_column_names", stringMap (CustomColumnNames c))].

Definition pgTrackTableArgs (a : PgTrackTableArgs) : string :=
  object [("source", appendString (PgTrackTableArgs_Source a));
          ("table", table (PgTrackTableArgs_Table a));
          ("configuration", configuration (PgTrackTableArgs_Configuration a))].

Definition trackTable (t : TrackTable) : string :=
  object [("type", appendString (TrackTable_Type t));
          ("args", pgTrackTableArgs (TrackTable_Args t))].

Definition objectUsing (u : CreateObjectRelationshipUsing) : string :=
  object [("foreign_key_constraint_on",
           stringSlice (ObjectUsing_ForeignKeyConstraintOn u))].

Definition objectArgs (a : CreateObjectRelationshipArgs) : string :=
  object [("table", table (ObjectArgs_Table a));
          ("name", appendString (ObjectArgs_Name a));
          ("source", appendString (ObjectArgs_Source a));
          ("using", objectUsing (ObjectArgs_Using a))].

Definition createObjectRelationship (r : CreateObjectRelationship) : string :=
  object [("type", appendString (CreateObjectRelationship_Type r));
          ("args", objectArgs (CreateObjectRelationship_Args r))].

Definition foreignKeyConstraintOn (f : ForeignKeyConstraintOn) : string :=
  object [("table", table (ForeignKeyConstraintOn_Table f));
          ("columns", stringSlice (ForeignKeyConstraintOn_Columns f))].

Definition arrayUsing (u : CreateArrayRelationshipUsing) : string :=
  object [("foreign_key_constraint_on",
           foreignKeyConstraintOn (ArrayUsing_ForeignKeyConstraintOn u))].

Definition arrayArgs (a : CreateArrayRelationshipArgs) : string :=
  object [("table", table (ArrayArgs_Table a));
          ("name", appendString (ArrayArgs_Name a));
          ("source", appendString (ArrayArgs_Source a));
          ("using", arrayUsing (ArrayArgs_Using a))].

Definition createArrayRelationship (r : CreateArrayRelationship) : string :=
  object [("type", appendString (CreateArrayRelationship_Type r));
          ("args", arrayArgs (CreateArrayRelationship_Args r))].

End Marshal.

(** [json.Marshal(data)]: the bytes and a nil error.  Strings, slices and
    maps of strings and structs of them always encode, so the error result
    is nil for every [Operation]. *)
Definition json_Marshal (data : Operation) : string * option error :=
  match data with
  | OpTrackTable t => (Marshal.trackTable t, None)
  | OpCreateObjectRelationship r => (Marshal.createObjectRelationship r, None)
  | OpCreateArrayRelationship r => (Marshal.createArrayRelationship r, None)
  end.


(* ================================================================= *)
(** * time and net/http *)

Module time.
(** [time.Duration] counts nanoseconds. *)
Definition Second : Z := 1000000000.
End time.

Module http.

Definition StatusOK : Z := 200.
Definition MethodPost : string := "POST".

Record Client := { Timeout : Z }.

(** A request as [postMetadata] builds it; [Header] holds the fields in
    the order they were first set. *)
Record Request := {
  Method : string;
  URL : string;
  Header : list (string * string);
  Body : string
}.

(** A response: the status code and the bytes [io.ReadAll(resp.Body)]
    yields. *)
Record Response := {
  StatusCode : Z;
  ResponseBody : string
}.

Definition lower (c : byte) : byte :=
  if between 65 90 c then n2b (b2n c + 32) else c.

(** [textproto.CanonicalMIMEHeaderKey] on a key of letters, digits and
    hyphens: a capital at the start and after each hyphen, small letters
    elsewhere. *)
Fixpoint canonical (up : bool) (k : string) : string :=
  match k with
  | EmptyString => EmptyString
  | String c t =>
    String (if up then json.upper c else lower c) (canonical (Ascii.eqb c "-") t)
  end.

Definition CanonicalMIMEHeaderKey (k : string) : string := canonical true k.

Fixpoint setField (h : list (string * string)) (k v : string)
  : list (string * string) :=
  match h with
  | [] => [(k, v)]
  | (k', v') :: t =>
    if String.eqb k' k then (k, v) :: t else (k', v') :: setField t k v
  end.

(** [req.Header.Set(key, value)]. *)
Definition Header_Set (req : Request) (key value : string) : Request :=
  {| Method := Method req;
     URL := URL req;
     Header := setField (Header req) (CanonicalMIMEHeaderKey key) value;
     Body := Body req |}.

End http.

(* ================================================================= *)
(** * Package migrations *)

Definition timeout : Z := 10.

Record hasuraErrResponse := {
  Path : string;
  Error : string;
  Code : string
}.

(** ** json.Unmarshal into a [*hasuraErrResponse] variable *)

(** [d.object] on one member: the field whose tag matches the key takes a
    string, ignores [null] and records a type error for anything else;
    a key that matches no field is skipped. *)
Definition storeMember (acc : hasuraErrResponse * bool) (m : string * json.value)
  : hasuraErrResponse * bool :=
  let '(r, bad) := acc in
  let '(key, v) := m in
  let store (set : string -> hasuraErrResponse) :=
    match v with
    | json.VString s => (set s, bad)
    | json.VNull => (r, bad)
    | json.VOther => (r, true)
    end in
  if json.equalFold "path" key then
    store (fun s => {| Path := s; Error := Error r; Code := Code r |})
  else if json.equalFold "error" key then
    store (fun s => {| Path := Path r; Error := s; Code := Code r |})
  else if json.equalFold "code" key then
    store (fun s => {| Path := Path r; Error := Error r; Code := s |})
  else (r, bad).

Definition zeroErrResponse : hasuraErrResponse :=
  {| Path := ""; Error := ""; Code := "" |}.

(** [json.Unmarshal(data, &v)] for [v] of type [*hasuraErrResponse]: the
    new value of [v] ([None] is the nil pointer) and the error.  A text
    that is not JSON leaves [v] alone; the JSON [null] sets [v] to nil and
    is no error; an object fills a struct allocated if [v] was nil; any
    other value is a type error. *)
Definition json_Unmarshal (data : string) (v : option hasuraErrResponse)
  : option hasuraErrResponse * option error :=
  if negb (json.checkValid data) then (v, Some json.SyntaxError)
  else
    let target := match v with Some r => r | None => zeroErrResponse end in
    match json.decodeTop data with
    | json.TopNull => (None, None)
    | json.TopOther => (Some target, Some json.UnmarshalTypeError)
    | json.TopObject ms =>
      let '(r, bad) := fold_left storeMember ms (target, false) in
      (Some r, if bad then Some json.UnmarshalTypeError else None)
    end.

(** ** Running Go code: results and runtime panics *)

Inductive result (A : Type) : Type :=
| Return (a : A)
| Panic (msg : string).
Arguments Return {A} a.
Arguments Panic {A} msg.

Definition nilDereference : string :=
  "runtime error: invalid memory address or nil pointer dereference".

(** [p.Code] for a pointer [p]. *)
Definition deref_Code (p : option hasuraErrResponse) : result string :=
  match p with
  | Some r => Return (Code r)
  | None => Panic nilDereference
  end.

(** [fmt.Errorf("status_code: %d\nresponse: %s", statusCode, b)]. *)
Definition statusError (statusCode : Z) (b : string) : error :=
  errorString ("status_code: " ++ strconv.Itoa statusCode
               ++ String newline "response: " ++ b).

(** Lines 49 to 61 of [postMetadata]: what the function returns once
    [client.Do] has handed it a response. *)
Definition checkResponse (resp : http.Response) : result (option error) :=
  if negb (Z.eqb (http.StatusCode resp) http.StatusOK) then
    let b := http.ResponseBody resp in
    let '(errResponse, err) := json_Unmarshal b None in
    match err with
    | Some _ => Return (Some (statusError (http.StatusCode resp) b))
    | None =>
      match deref_Code errResponse with
      | Panic msg => Panic msg
      | Return code =>
        if (String.eqb code "already-tracked" || String.eqb code "already-exists")%bool
        then Return None
        else Return (Some (statusError (http.StatusCode resp) b))
      end
    end
  else Return None.

(** ** The operations [ApplyHasuraMetadata] submits *)

Definition bucketsTable : TrackTable :=
  {| TrackTable_Type := "pg_track_table";
     TrackTable_Args :=
       {| PgTrackTableArgs_Source := "default";
          PgTrackTableArgs_Table := {| Table_Schema := "storage"; Table_Name := "buckets" |};
          PgTrackTableArgs_Configuration :=
            {| CustomName := "buckets";
               CustomRootFields_ :=
                 {| Select := "buckets";
                    SelectByPk := "bucket";
                    SelectAggregate := "bucketsAggregate";
                    Insert := "insertBuckets";
                    InsertOne := "insertBucket";
                    Update := "updateBuckets";
                    UpdateByPk := "updateBucket";
                    Delete := "deleteBuckets";
                    DeleteByPk := "deleteBucket" |};
               CustomColumnNames := mk_map
                 [("id", "id");
                  ("created_at", "createdAt");
                  ("updated_at", "updatedAt");
                  ("download_expiration", "downloadExpiration");
                  ("min_upload_file_size", "minUploadFileSize");
                  ("max_upload_file_size", "maxUploadFileSize");
                  ("cache_control", "cacheControl");
                  ("presigned_urls_enabled", "presignedUrlsEnabled")] |} |} |}.

Definition filesTable : TrackTable :=
  {| TrackTable_Type := "pg_track_table";
     TrackTable_Args :=
       {| PgTrackTableArgs_Source := "default";
          PgTrackTableArgs_Table := {| Table_Schema := "storage"; Table_Name := "files" |};
          PgTrackTableArgs_Configuration :=
            {| CustomName := "files";
               CustomRootFields_ :=
                 {| Select := "files";
                    SelectByPk := "file";
                    SelectAggregate := "filesAggregate";
                    Insert := "insertFiles";
                    InsertOne := "insertFile";
                    Update := "updateFiles";
                    UpdateByPk := "updateFile";
                    Delete := "deleteFiles";
                    DeleteByPk := "deleteFile" |};
               CustomColumnNames := mk_map
                 [("id", "id");
                  ("created_at", "createdAt");
                  ("updated_at", "updatedAt");
                  ("bucket_id", "bucketId");
                  ("name", "name");
                  ("size", "size");
                  ("mime_type", "mimeType");
                  ("etag", "etag");
                  ("is_uploaded", "isUploaded");
                  ("uploaded_by_user_id", "uploadedByUserId")] |} |} |}.

Definition objRelationshipBuckets : CreateObjectRelationship :=
  {| CreateObjectRelationship_Type := "pg_create_object_relationship";
     CreateObjectRelationship_Args :=
       {| ObjectArgs_Table := {| Table_Schema := "storage"; Table_Name := "files" |};
          ObjectArgs_Name := "bucket";
          ObjectArgs_Source := "default";
          ObjectArgs_Using :=
            {| ObjectUsing_ForeignKeyConstraintOn := mk_slice ["bucket_id"] |} |} |}.

Definition arrRelationship : CreateArrayRelationship :=
  {| CreateArrayRelationship_Type := "pg_create_array_relationship";
     CreateArrayRelationship_Args :=
       {| ArrayArgs_Table := {| Table_Schema := "storage"; Table_Name := "buckets" |};
          ArrayArgs_Name := "files";
          ArrayArgs_Source := "default";
          ArrayArgs_Using :=
            {| ArrayUsing_ForeignKeyConstraintOn :=
                 {| ForeignKeyConstraintOn_Table :=
                      {| Table_Schema := "storage"; Table_Name := "files" |};
                    ForeignKeyConstraintOn_Columns := mk_slice ["bucket_id"] |} |} |} |}.

Definition objRelationshipUser : CreateObjectRelationship :=
  {| CreateObjectRelationship_Type := "pg_create_object_relationship";
     CreateObjectRelationship_Args :=
       {| ObjectArgs_Table := {| Table_Schema := "storage"; Table_Name := "files" |};
          ObjectArgs_Name := "uploadedByUser";
          ObjectArgs_Source := "default";
          ObjectArgs_Using :=
            {| ObjectUsing_ForeignKeyConstraintOn := mk_slice ["uploaded_by_user_id"] |} |} |}.

(** The five operations in the order of the source. *)
Definition sequence : list Operation :=
  [OpTrackTable bucketsTable;
   OpTrackTable filesTable;
   OpCreateObjectRelationship objRelationshipBuckets;
   OpCreateArrayRelationship arrRelationship;
   OpCreateObjectRelationship objRelationshipUser].

(** ** What the model leaves open *)

(** The world outside the package: [net/url]'s verdict on a raw URL (the
    error of [url.Parse], if any), and the network with the remote
    service behind it.  [client_Do] is the [Do] method of
    [http.Client]: from the state of the remote side it yields a response
    or a transport error (a timeout is one of them) and the next state. *)
Class Runtime : Type := {
  Remote : Type;
  url_Parse_error : string -> option error;
  client_Do : http.Client -> http.Request -> Remote
              -> (http.Response + error) * Remote
}.

Section Program.

Context {R : Runtime}.

(** What a run reads and writes: the remote side, the calls made to
    [client.Do] so far and the messages given to [logger.Warnf]. *)
Record State := {
  remote : Remote;
  sent : list (http.Client * http.Request);
  warnings : list string
}.

(** A computation: a result or a panic, and the state it leaves. *)
Definition Go (A : Type) : Type := State -> result A * State.

Definition ret {A} (a : A) : Go A := fun st => (Return a, st).

Definition bind {A B} (m : Go A) (k : A -> Go B) : Go B :=
  fun st =>
    match m st with
    | (Return a, st') => k a st'
    | (Panic msg, st') => (Panic msg, st')
    end.

Definition lift {A} (r : result A) : Go A := fun st => (r, st).

(** [client.Do(req)]. *)
Definition Do (client : http.Client) (req : http.Request)
  : Go (http.Response + error) :=
  fun st =>
    let '(r, remote') := client_Do client req (remote st) in
    (Return r, {| remote := remote';
                  sent := sent st ++ [(client, req)];
                  warnings := warnings st |}).

(** [logger.Warnf] with the message already formatted. *)
Definition logger_Warnf (msg : string) : Go unit :=
  fun st =>
    (Return tt, {| remote := remote st;
                   sent := sent st;
                   warnings := warnings st ++ [msg] |}).

(** [http.NewRequestWithContext(context.Background(), method, url, body)]:
    it fails when the URL does not parse. *)
Definition http_NewRequestWithContext (method url body : string)
  : http.Request + error :=
  match url_Parse_error url with
  | Some e => inr e
  | None => inl {| http.Method := method;
                   http.URL := url;
                   http.Header := [];
                   http.Body := body |}
  end.

Notation "x <- m ;; k" := (bind m (fun x => k))
  (at level 61, m at next level, right associativity).

Definition postMetadata (baseURL hasuraSecret : string) (data : Operation)
  : Go (option error) :=
  let client := {| http.Timeout := time.Second * timeout |} in
  let '(b, err) := json_Marshal data in
  match err with
  | Some err => ret (Some (fmt.Errorf_w "problem marshalling data" err))
  | None =>
    match http_NewRequestWithContext http.MethodPost (baseURL ++ "/metadata") b with
    | inr err => ret (Some (fmt.Errorf_w "problem creating request" err))
    | inl req =>
      let req := http.Header_Set req "Content-Type" "application/json; charset=UTF-8" in
      let req := http.Header_Set req "X-Hasura-admin-secret" hasuraSecret in
      r <- Do client req ;;
      match r with
      | inr err => ret (Some (fmt.Errorf_w "problem executing request" err))
      | inl resp => lift (checkResponse resp)
      end
    end
  end.

Definition ApplyHasuraMetadata (url hasuraSecret : string) : Go (option error) :=
  err <- postMetadata url hasuraSecret (OpTrackTable bucketsTable) ;;
  match err with
  | Some err =>
    ret (Some (fmt.Errorf_w "problem adding metadata for the buckets table" err))
  | None =>
  err <- postMetadata url hasuraSecret (OpTrackTable filesTable) ;;
  match err with
  | Some err =>
    ret (Some (fmt.Errorf_w "problem adding metadata for the files table" err))
  | None =>
  err <- postMetadata url hasuraSecret (OpCreateObjectRelationship objRelationshipBuckets) ;;
  match err with
  | Some err =>
    ret (Some (fmt.Errorf_w "problem creaiing object relationship for buckets" err))
  | None =>
  err <- postMetadata url hasuraSecret (OpCreateArrayRelationship arrRelationship) ;;
  match err with
  | Some err =>
    ret (Some (fmt.Errorf_w "problem creating array relationships" err))
  | None =>
  err <- postMetadata url hasuraSecret (OpCreateObjectRelationship objRelationshipUser) ;;
  _ <- match err with
       | Some err =>
         logger_Warnf
           (fmt.Sprintf_s "problem creating object relationship for users" err)
       | None => ret tt
       end ;;
  ret None
  end end end end.

(** ** Vocabulary for the statements *)

(** The request [postMetadata] builds for [data]. *)
Definition requestFor (baseURL hasuraSecret : string) (data : Operation)
  : http.Request :=
  {| http.Method := "POST";
     http.URL := baseURL ++ "/metadata";
     http.Header := [("Content-Type", "application/json; charset=UTF-8");
                     ("X-Hasura-Admin-Secret", hasuraSecret)];
     http.Body := fst (json_Marshal data) |}.

(** The client [postMetadata] makes: a timeout of ten seconds. *)
Definition tenSecondClient : http.Client :=
  {| http.Timeout := 10 * time.Second |}.

(** In state [st] the endpoint answers the request for [data] with the
    response [resp], and [st'] is the state after that one call. *)
Definition replies (baseURL hasuraSecret : string) (data : Operation)
           (st : State) (resp : http.Response) (st' : State) : Prop :=
  url_Parse_error (baseURL ++ "/metadata") = None /\
  client_Do tenSecondClient (requestFor baseURL hasuraSecret data) (remote st)
    = (inl resp, remote st') /\
  sent st' = (sent st ++ [(tenSecondClient, requestFor baseURL hasuraSecret data)])%list /\
  warnings st' = warnings st.

(** The operations [ops], submitted one after the other from [st], are
    answered by the responses [resps], and leave the state [st']. *)
Fixpoint repliesAll (baseURL hasuraSecret : string) (ops : list Operation)
         (st : State) (resps : list http.Response) (st' : State) : Prop :=
  match ops, resps with
  | [], [] => st' = st
  | op :: ops', resp :: resps' =>
    exists st1, replies baseURL hasuraSecret op st resp st1 /\
                repliesAll baseURL hasuraSecret ops' st1 resps' st'
  | _, _ => False
  end.

(** Every call of [postMetadata] on [ops], one after the other from
    [st], returned nil, and [st'] is the state after the last. *)
Fixpoint accepted (baseURL hasuraSecret : string) (ops : list Operation)
         (st st' : State) : Prop :=
  match ops with
  | [] => st' = st
  | op :: ops' =>
    exists st1, postMetadata baseURL hasuraSecret op st = (Return None, st1) /\
                accepted baseURL hasuraSecret ops' st1 st'
  end.

End Program.

Arguments State : clear implicits.

(** ** The outcomes of the specification *)

(** The specification's [ApplyOutcome]. *)
Inductive ApplyOutcome : Type :=
| Applied
| AlreadyApplied
| Failed (detail : error).

(** The specification's classification of a response, steps 3 and 4 of
    its submission engine: success on status 200; otherwise the body is
    parsed as [{path, error, code}], a code of the idempotency set is
    [AlreadyApplied], and everything else is [Failed] with the status code
    and the body. *)
Definition classify (resp : http.Response) : ApplyOutcome :=
  let failed := Failed (statusError (http.StatusCode resp) (http.ResponseBody resp)) in
  if Z.eqb (http.StatusCode resp) http.StatusOK then Applied
  else match json_Unmarshal (http.ResponseBody resp) None with
       | (Some r, None) =>
         if (String.eqb (Code r) "already-tracked" || String.eqb (Code r) "already-exists")%bool
         then AlreadyApplied
         else failed
       | _ => failed
       end.

(** What the caller of [postMetadata] gets to see of an outcome. *)
Definition returned (o : ApplyOutcome) : option error :=
  match o with
  | Applied => None
  | AlreadyApplied => None
  | Failed detail => Some detail
  end.

(** The context [ApplyHasuraMetadata] wraps around the error of each of
    the four submissions it does not tolerate, in the order of
    [sequence]. *)
Definition contexts : list string :=
  ["problem adding metadata for the buckets table";
   "problem adding metadata for the files table";
   "problem creaiing object relationship for buckets";
   "problem creating array relationships"].

(** Operation [k] of the sequence is critical: when the operations before
    it were accepted and its own submission fails with [e], the run ends
    in the state that submission left -- no further request, nothing
    logged -- and returns an error that wraps [e]. *)
Definition critical (k : nat) : Prop :=
  forall (R : Runtime) (url secret : string) (op : Operation)
         (st st_k st' : State R) (e : error),
    nth_error sequence k = Some op ->
    accepted url secret (firstn k sequence) st st_k ->
    postMetadata url secret op st_k = (Return (Some e), st') ->
    exists e', ApplyHasuraMetadata url secret st = (Return (Some e'), st')
               /\ Unwrap e' = Some e.

(** The weakest sense in which operation [k] could be called tolerated:
    under the same conditions the log is longer at the end of the run
    than the failed submission left it, and [e] is not what the run
    returns. *)
Definition tolerated (k : nat) : Prop :=
  forall (R : Runtime) (url secret : string) (op : Operation)
         (st st_k st' : State R) (e : error),
    nth_error sequence k = Some op ->
    accepted url secret (firstn k sequence) st st_k ->
    postMetadata url secret op st_k = (Return (Some e), st') ->
    exists r st_end,
      ApplyHasuraMetadata url secret st = (r, st_end)
      /\ (List.length (warnings st') < List.length (warnings st_end))%nat
      /\ (forall e', r = Return (Some e') -> Unwrap e' <> Some e).

(** Operation [k] of the sequence is best-effort: under the same
    conditions the failure is logged -- right after the failed
    submission the log takes a warning [w] that carries the text of [e]
    -- the run does not return [e], and the sequence continues to a
    successful return: when the operations after [k] are accepted from
    the state with that warning, the run returns nil in the state they
    leave.  For the last operation that is: the run returns nil, with
    exactly that warning added and no further call. *)
Definition bestEffort (k : nat) : Prop :=
  forall (R : Runtime) (url secret : string) (op : Operation)
         (st st_k st' : State R) (e : error),
    nth_error sequence k = Some op ->
    accepted url secret (firstn k sequence) st st_k ->
    postMetadata url secret op st_k = (Return (Some e), st') ->
    exists w,
      Contains w (error_Error e)
      /\ (exists r st_end more,
             ApplyHasuraMetadata url secret st = (r, st_end)
             /\ warnings st_end = (warnings st' ++ w :: more)%list
             /\ (forall e', r = Return (Some e') -> Unwrap e' <> Some e))
      /\ (forall st_end,
             accepted url secret (skipn (S k) sequence)
                      {| remote := remote st';
                         sent := sent st';
                         warnings := (warnings st' ++ [w])%list |} st_end ->
             ApplyHasuraMetadata url secret st = (Return None, st_end)).

(** The five request bodies, byte for byte (with ['] for the double
    quote). *)
Definition bodies : list string :=
  map q
    ["{'type':'pg_track_table','args':{'source':'default','table':{'schema':'storage','name':'buckets'},'configuration':{'custom_name':'buckets','custom_root_fields':{'select':'buckets','select_by_pk':'bucket','select_aggregate':'bucketsAggregate','insert':'insertBuckets','insert_one':'insertBucket','update':'updateBuckets','update_by_pk':'updateBucket','delete':'deleteBuckets','delete_by_pk':'deleteBucket'},'custom_column_names':{'cache_control':'cacheControl','created_at':'createdAt','download_expiration':'downloadExpiration','id':'id','max_upload_file_size':'maxUploadFileSize','min_upload_file_size':'minUploadFileSize','presigned_urls_enabled':'presignedUrlsEnabled','updated_at':'updatedAt'}}}}";
     "{'type':'pg_track_table','args':{'source':'default','table':{'schema':'storage','name':'files'},'configuration':{'custom_name':'files','custom_root_fields':{'select':'files','select_by_pk':'file','select_aggregate':'filesAggregate','insert':'insertFiles','insert_one':'insertFile','update':'updateFiles','update_by_pk':'updateFile','delete':'deleteFiles','delete_by_pk':'deleteFile'},'custom_column_names':{'bucket_id':'bucketId','created_at':'createdAt','etag':'etag','id':'id','is_uploaded':'isUploaded','mime_type':'mimeType','name':'name','size':'size','updated_at':'updatedAt','uploaded_by_user_id':'uploadedByUserId'}}}}";
     "{'type':'pg_create_object_relationship','args':{'table':{'schema':'storage','name':'files'},'name':'bucket','source':'default','using':{'foreign_key_constraint_on':['bucket_id']}}}";
     "{'type':'pg_create_array_relationship','args':{'table':{'schema':'storage','name':'buckets'},'name':'files','source':'default','using':{'foreign_key_constraint_on':{'table':{'schema':'storage','name':'files'},'columns':['bucket_id']}}}}";
     "{'type':'pg_create_object_relationship','args':{'table':{'schema':'storage','name':'files'},'name':'uploadedByUser','source':'default','using':{'foreign_key_constraint_on':['uploaded_by_user_id']}}}"].

(** The order of [json.keyLt] as a relation on entries. *)
Definition keyBefore (a b : string * string) : Prop :=
  String_as_OT.lt (fst a) (fst b).

(** A response the caller takes for success: [Applied] or
    [AlreadyApplied]. *)
Definition accepting (resp : http.Response) : Prop :=
  classify resp = Applied \/ classify resp = AlreadyApplied.

(** Two operations are the same logical value when they agree up to the
    order in which their maps list their entries. *)
Definition sameMap (m1 m2 : gomap) : Prop :=
  match m1, m2 with
  | nil_map, nil_map => True
  | mk_map l1, mk_map l2 => Permutation l1 l2
  | _, _ => False
  end.

Definition wellFormedMap (m : gomap) : Prop :=
  match m with
  | nil_map => True
  | mk_map l => NoDup (map fst l)
  end.

Definition columnNames (op : Operation) : gomap :=
  match op with
  | OpTrackTable t => CustomColumnNames (PgTrackTableArgs_Configuration (TrackTable_Args t))
  | _ => nil_map
  end.

Definition withColumnNames (op : Operation) (m : gomap) : Operation :=
  match op with
  | OpTrackTable t =>
    let a := TrackTable_Args t in
    let c := PgTrackTableArgs_Configuration a in
    OpTrackTable
      {| TrackTable_Type := TrackTable_Type t;
         TrackTable_Args :=
           {| PgTrackTableArgs_Source := PgTrackTableArgs_Source a;
              PgTrackTableArgs_Table := PgTrackTableArgs_Table a;
              PgTrackTableArgs_Configuration :=
                {| CustomName := CustomName c;
                   CustomRootFields_ := CustomRootFields_ c;
                   CustomColumnNames := m |} |} |}
  | _ => op
  end.

Definition sameOperation (a b : Operation) : Prop :=
  sameMap (columnNames a) (columnNames b) /\
  b = withColumnNames a (columnNames b).

(** ** Scripted endpoints, for running the model *)

(** [stringContainsCTLByte] of [net/url]: the first check of
    [url.Parse]. *)
Fixpoint hasCTLByte (s : string) : bool :=
  match s with
  | EmptyString => false
  | String c t => (N.ltb (b2n c) 32 || N.eqb (b2n c) 127 || hasCTLByte t)%bool
  end.

(** An endpoint that answers the [n]-th call with the [n]-th entry of a
    script and with a transport error once the script is over.  Its state
    is the number of calls so far.  URLs parse unless they hold an ASCII
    control byte. *)
Definition scripted (script : list (http.Response + error)) : Runtime :=
  {| Remote := nat;
     url_Parse_error := fun u =>
       if hasCTLByte u
       then Some (errorString "net/url: invalid control character in URL")
       else None;
     client_Do := fun _ _ n =>
       (nth n script (inr (errorString "connection refused")), S n) |}.

(** The state of a scripted endpoint after [n] calls. *)
Definition after (script : list (http.Response + error)) (n : nat)
           (calls : list (http.Client * http.Request)) (logged : list string)
  : State (scripted script) :=
  @Build_State (scripted script) n calls logged.

Definition start (script : list (http.Response + error)) : State (scripted script) :=
  after script 0 [] [].

Definition exampleURL : string := "http://graphql-engine:8080/v1".
Definition exampleSecret : string := "nhost-admin-secret".

Definition ok200 : http.Response + error :=
  inl {| http.StatusCode := 200; http.ResponseBody := "" |}.

Definition reply (status : Z) (body : string) : http.Response + error :=
  inl {| http.StatusCode := status; http.ResponseBody := q body |}.

(** What [json.Marshal] writes for a [hasuraErrResponse], after its
    struct tags: the shape of an error body of the remote service. *)
Definition errorBody (r : hasuraErrResponse) : string :=
  json.object [("path", json.appendString (Path r));
               ("error", json.appendString (Error r));
               ("code", json.appendString (Code r))].

(** Every byte of [s] is below 128. *)
Fixpoint isASCII (s : string) : bool :=
  match s with
  | EmptyString => true
  | String c t => (N.ltb (b2n c) 128 && isASCII t)%bool
  end.

(** Every byte of [s] is JSON white space. *)
Fixpoint isSpaces (s : string) : bool :=
  match s with
  | EmptyString => true
  | String c t => (json.isSpace c && isSpaces t)%bool
  end.

(** What [appendString] writes for one ASCII byte. *)
Definition written (c : byte) : string :=
  if json.htmlSafeSet c then String c "" else json.escapeByte c.

(** A byte the scanner lets pass inside a string literal. *)
Definition stringSafe (c : byte) : bool :=
  (negb (json.isQuote c) && negb (json.isByte "\" c) && negb (N.ltb (b2n c) 32))%bool.

Fixpoint allSafe (s : string) : bool :=
  match s with
  | EmptyString => true
  | String c t => (stringSafe c && allSafe t)%bool
  end.

(** The first [k] bytes of [s] are UTF-8 continuation bytes. *)
Fixpoint contPrefix (k : nat) (s : string) : bool :=
  match k with
  | O => true
  | S k' =>
    match s with
    | EmptyString => false
    | String c t => (between 128 191 c && contPrefix k' t)%bool
    end
  end.

(** Scanner states without an error: inside a string, after a value, and
    after the bracket that closes a value opened on the stack [stk]. *)
Definition inStr (e : bool) (stk : list json.parseState) : json.scanner :=
  json.mkScanner json.stateInString e stk false.

Definition endValue (e : bool) (stk : list json.parseState) : json.scanner :=
  json.mkScanner json.stateEndValue e stk false.

Definition closed (e : bool) (stk : list json.parseState) : json.scanner :=
  match stk with
  | [] => json.mkScanner json.stateEndTop true [] false
  | _ :: _ => endValue e stk
  end.

(** Where a value may begin. *)
Definition beginsValue (st : json.stepState) : Prop :=
  st = json.stateBeginValue \/ st = json.stateBeginValueOrEmpty.

(** Where an object key may begin. *)
Definition beginsKey (st : json.stepState) : Prop :=
  st = json.stateBeginStringOrEmpty \/ st = json.stateBeginString.

(** The scanner reads the text [v] as one value nested at most [d]
    levels deep, wherever a value may begin inside an object or an array,
    on a stack with room for it. *)
Definition accepts (d : nat) (v : string) : Prop :=
  forall st e p stk rest,
    beginsValue st ->
    (List.length stk + d <= 100)%nat ->
    json.scanAll (json.mkScanner st e (p :: stk) false) (v ++ rest)
    = json.scanAll (endValue e (p :: stk)) rest.

(** The scanner reads the text [m] as a key, a colon and a value of an
    object. *)
Definition member (d : nat) (m : string) : Prop :=
  forall st e stk rest,
    beginsKey st ->
    (List.length stk + d <= 100)%nat ->
    json.scanAll (json.mkScanner st e (json.parseObjectKey :: stk) false) (m ++ rest)
    = json.scanAll (endValue e (json.parseObjectValue :: stk)) rest.

(** The fields of a struct as the scanner needs them: tag names of
    plain bytes, encoded fields that are values. *)
Definition fieldsOK (d : nat) (fields : list (string * string)) : Prop :=
  Forall (fun f => allSafe (fst f) = true /\ accepts d (snd f)) fields.

(** Three decimal digits, hundreds first. *)
Definition decimal3 (n : Z) : string :=
  let digit (d : Z) : byte := n2b (48 + Z.to_N d) in
  String (digit (n / 100)%Z)
    (String (digit ((n / 10) mod 10)%Z) (String (digit (n mod 10)%Z) "")).

(** The calls for the first [n] operations of the sequence. *)
Definition callsOf (url secret : string) (n : nat)
  : list (http.Client * http.Request) :=
  map (fun op => (tenSecondClient, requestFor url secret op)) (firstn n sequence).

(** The text the logger gets when the users relationship fails. *)
Definition usersWarning (e : error) : string :=
  fmt.Sprintf_s "problem creating object relationship for users" e.

(* ================================================================= *)
(** * Properties of the encoder *)

Section KeyOrder.

Lemma keyLt_true (a b : string * string) :
  json.keyLt a b = true <-> keyBefore a b.
Proof.
  unfold json.keyLt, keyBefore.
  rewrite <- String_as_OT.cmp_lt. unfold String_as_OT.cmp.
  destruct (String.compare (fst a) (fst b)); split; congruence.
Qed.

Lemma keyBefore_trans (a b c : string * string) :
  keyBefore a b -> keyBefore b c -> keyBefore a c.
Proof. apply String_as_OT.lt_trans. Qed.

Lemma keyBefore_irrefl (a : string * string) : ~ keyBefore a a.
Proof. intros H. exact (String_as_OT.lt_not_eq _ _ H eq_refl). Qed.

(** Two keys that differ are ordered one way or the other. *)
Lemma keyLt_false (a b : string * string) :
  json.keyLt a b = false -> fst a <> fst b -> keyBefore b a.
Proof.
  unfold json.keyLt, keyBefore. intros H Hne.
  destruct (String.compare (fst a) (fst b)) eqn:E; try discriminate.
  - apply String.compare_eq_iff in E. contradiction.
  - apply String_as_OT.cmp_lt. unfold String_as_OT.cmp.
    rewrite String.compare_antisym, E. reflexivity.
Qed.

Lemma insertEntry_perm (e : string * string) (l : list (string * string)) :
  Permutation (json.insertEntry e l) (e :: l).
Proof.
  induction l as [|h t IH]; simpl.
  - apply Permutation_refl.
  - destruct (json.keyLt h e).
    + apply perm_trans with (h :: e :: t).
      * apply perm_skip, IH.
      * apply perm_swap.
    + apply Permutation_refl.
Qed.

Lemma sortEntries_perm (l : list (string * string)) :
  Permutation (json.sortEntries l) l.
Proof.
  induction l as [|h t IH]; simpl.
  - apply perm_nil.
  - apply perm_trans with (h :: json.sortEntries t).
    + apply insertEntry_perm.
    + apply perm_skip, IH.
Qed.

Lemma insertEntry_sorted (e : string * string) (l : list (string * string)) :
  StronglySorted keyBefore l ->
  ~ In (fst e) (map fst l) ->
  StronglySorted keyBefore (json.insertEntry e l).
Proof.
  induction l as [|h t IH]; simpl; intros Hs Hnot.
  - constructor; constructor.
  - inversion Hs as [|? ? Hst Hall]; subst.
    destruct (json.keyLt h e) eqn:E.
    + constructor.
      * apply IH; [assumption | tauto].
      * apply Forall_forall. intros x Hx.
        apply (Permutation_in _ (insertEntry_perm e t)) in Hx.
        destruct Hx as [<- | Hx].
        -- now apply keyLt_true.
        -- rewrite Forall_forall in Hall. now apply Hall.
    + assert (Heh : keyBefore e h).
      { apply keyLt_false; [assumption | intuition congruence]. }
      constructor; [assumption |].
      constructor; [assumption |].
      rewrite Forall_forall in *. intros x Hx.
      eapply keyBefore_trans; eauto.
Qed.

Lemma sortEntries_sorted (l : list (string * string)) :
  NoDup (map fst l) -> StronglySorted keyBefore (json.sortEntries l).
Proof.
  induction l as [|h t IH]; simpl; intros Hnd.
  - constructor.
  - inversion Hnd as [|? ? Hnot Hnd']; subst.
    apply insertEntry_sorted; [now apply IH |].
    intros Hin. apply Hnot.
    eapply Permutation_in; [| exact Hin].
    apply Permutation_map, sortEntries_perm.
Qed.

(** A list sorted by a strict order is the only sorted arrangement of
    its elements. *)
Lemma sorted_perm_unique (l1 l2 : list (string * string)) :
  StronglySorted keyBefore l1 -> StronglySorted keyBefore l2 ->
  Permutation l1 l2 -> l1 = l2.
Proof.
  revert l2. induction l1 as [|a t1 IH]; intros l2 H1 H2 Hp.
  - apply Permutation_nil in Hp. now subst.
  - destruct l2 as [|b t2].
    + apply Permutation_sym, Permutation_nil in Hp. discriminate.
    + inversion H1 as [|? ? Hs1 Ha]; subst.
      inversion H2 as [|? ? Hs2 Hb]; subst.
      rewrite Forall_forall in Ha, Hb.
      assert (Hab : a = b).
      { assert (Hina : In a (b :: t2))
          by (eapply Permutation_in; [exact Hp | now left]).
        assert (Hinb : In b (a :: t1))
          by (eapply Permutation_in;
              [apply Permutation_sym; exact Hp | now left]).
        destruct Hina as [-> | Hina]; [reflexivity |].
        destruct Hinb as [-> | Hinb]; [reflexivity |].
        exfalso. apply (keyBefore_irrefl a).
        eapply keyBefore_trans; [apply Ha | apply Hb]; assumption. }
      subst b. f_equal.
      apply IH; try assumption.
      eapply Permutation_cons_inv; exact Hp.
Qed.

(** The sorted entries do not depend on the iteration order of the
    map. *)
Lemma sortEntries_order_independent (l1 l2 : list (string * string)) :
  NoDup (map fst l1) -> Permutation l1 l2 ->
  json.sortEntries l1 = json.sortEntries l2.
Proof.
  intros Hnd Hp.
  apply sorted_perm_unique.
  - now apply sortEntries_sorted.
  - apply sortEntries_sorted.
    eapply Permutation_NoDup; [| exact Hnd].
    now apply Permutation_map.
  - eapply perm_trans; [apply sortEntries_perm |].
    eapply perm_trans; [exact Hp |].
    apply Permutation_sym, sortEntries_perm.
Qed.

Lemma stringMap_order_independent (m1 m2 : gomap) :
  wellFormedMap m1 -> sameMap m1 m2 -> json.stringMap m1 = json.stringMap m2.
Proof.
  destruct m1 as [|l1], m2 as [|l2]; simpl; try tauto.
  intros Hnd Hp. now rewrite (sortEntries_order_independent l1 l2).
Qed.

End KeyOrder.

(** C9.  For each kind of operation, two values that are the same logical
    operation -- equal up to the order in which the map of custom column
    names lists its distinct keys -- are serialized by [json.Marshal] to
    the same bytes, with the same (nil) error. *)
Theorem json_Marshal_deterministic (a b : Operation) :
  wellFormedMap (columnNames a) ->
  sameOperation a b ->
  json_Marshal a = json_Marshal b.
Proof.
  intros Hwf [Hsame ->].
  destruct a as [t | r | r]; simpl in *; try reflexivity.
  unfold Marshal.trackTable, Marshal.pgTrackTableArgs, Marshal.configuration.
  simpl.
  now rewrite (stringMap_order_independent _ _ Hwf Hsame).
Qed.

(* ================================================================= *)
(** * Properties of the response check *)

Section Responses.

Variable resp : http.Response.

Let status := http.StatusCode resp.
Let body := http.ResponseBody resp.

Lemma checkResponse_status_ok :
  status = http.StatusOK -> checkResponse resp = Return None.
Proof.
  unfold checkResponse. fold status. intros ->. reflexivity.
Qed.

(** The code panics exactly on a body that decodes to the nil pointer
    without an error, under a status other than 200. *)
Lemma checkResponse_panic_iff :
  (exists msg, checkResponse resp = Panic msg) <->
  status <> http.StatusOK /\ json_Unmarshal body None = (None, None).
Proof.
  unfold checkResponse. fold status body.
  destruct (Z.eqb_spec status http.StatusOK) as [E | E]; simpl.
  - split; [intros [? ?]; discriminate | tauto].
  - destruct (json_Unmarshal body None) as [[r |] [e |]]; simpl.
    + split; [intros [? ?]; discriminate | intros [_ ?]; discriminate].
    + destruct (_ || _)%bool;
        (split; [intros [? ?]; discriminate | intros [_ ?]; discriminate]).
    + split; [intros [? ?]; discriminate | intros [_ ?]; discriminate].
    + split; [tauto | intros _; eexists; reflexivity].
Qed.

(** Away from that case the code returns what the specification's
    outcome shows to the caller. *)
Lemma checkResponse_classify :
  status = http.StatusOK \/ json_Unmarshal body None <> (None, None) ->
  checkResponse resp = Return (returned (classify resp)).
Proof.
  unfold checkResponse, classify. fold status body.
  destruct (Z.eqb_spec status http.StatusOK) as [E | E]; simpl; [reflexivity |].
  intros [? | H]; [contradiction |].
  destruct (json_Unmarshal body None) as [[r |] [e |]]; simpl; try reflexivity.
  - destruct (_ || _)%bool; reflexivity.
  - congruence.
Qed.

(** The code returns nil exactly on status 200 and on a decoded code of
    the idempotency set. *)
Lemma checkResponse_nil_iff :
  checkResponse resp = Return None <->
  status = http.StatusOK \/
  exists r, json_Unmarshal body None = (Some r, None) /\
            (Code r = "already-tracked" \/ Code r = "already-exists").
Proof.
  unfold checkResponse. fold status body.
  destruct (Z.eqb_spec status http.StatusOK) as [E | E]; simpl.
  - split; auto.
  - destruct (json_Unmarshal body None) as [[r |] [e |]]; simpl;
      try (split; [discriminate | intros [? | (r' & Hr & _)]; congruence]).
    destruct (String.eqb_spec (Code r) "already-tracked") as [E1 | E1];
      destruct (String.eqb_spec (Code r) "already-exists") as [E2 | E2]; simpl;
      try (split; [intros _; right; exists r; tauto | reflexivity]).
    split; [discriminate |].
    intros [? | (r' & Hr & Hc)]; [contradiction |].
    injection Hr as <-. tauto.
Qed.

Lemma accepting_nil : accepting resp -> checkResponse resp = Return None.
Proof.
  unfold accepting, classify, checkResponse. fold status body.
  destruct (Z.eqb_spec status http.StatusOK) as [E | E]; simpl; [reflexivity |].
  destruct (json_Unmarshal body None) as [[r |] [e |]]; simpl;
    try (intros [? | ?]; discriminate).
  destruct (_ || _)%bool; [reflexivity | intros [? | ?]; discriminate].
Qed.

End Responses.

Lemma status200_accepting (resp : http.Response) :
  http.StatusCode resp = 200%Z -> accepting resp.
Proof.
  intros H. left. unfold classify. rewrite H. reflexivity.
Qed.

(* ================================================================= *)
(** * Properties of [postMetadata] *)

Section Submission.

Context {R : Runtime}.
Variables baseURL hasuraSecret : string.

(** [postMetadata] in one piece: no call when the URL is refused, one
    call to [client.Do] otherwise, whose answer decides the result. *)
Lemma postMetadata_unfold (data : Operation) (st : State R) :
  postMetadata baseURL hasuraSecret data st =
  match url_Parse_error (baseURL ++ "/metadata") with
  | Some e => (Return (Some (fmt.Errorf_w "problem creating request" e)), st)
  | None =>
    let call := (tenSecondClient, requestFor baseURL hasuraSecret data) in
    let '(r, remote') := client_Do (fst call) (snd call) (remote st) in
    let st' := {| remote := remote';
                  sent := sent st ++ [call];
                  warnings := warnings st |} in
    match r with
    | inr e => (Return (Some (fmt.Errorf_w "problem executing request" e)), st')
    | inl resp => (checkResponse resp, st')
    end
  end.
Proof.
  unfold postMetadata, http_NewRequestWithContext.
  assert (Hm : json_Marshal data = (fst (json_Marshal data), None))
    by (destruct data; reflexivity).
  rewrite Hm. cbv iota beta.
  destruct (url_Parse_error (baseURL ++ "/metadata")); [reflexivity |].
  unfold bind, Do, ret, lift.
  change (client_Do _ _ (remote st))
    with (client_Do tenSecondClient (requestFor baseURL hasuraSecret data)
                    (remote st)).
  simpl fst; simpl snd.
  destruct (client_Do _ _ (remote st)) as [[resp | e] remote']; reflexivity.
Qed.

Lemma replies_postMetadata (data : Operation) (st st' : State R)
      (resp : http.Response) :
  replies baseURL hasuraSecret data st resp st' ->
  postMetadata baseURL hasuraSecret data st = (checkResponse resp, st').
Proof.
  intros (Hurl & Hdo & Hsent & Hwarn).
  rewrite postMetadata_unfold, Hurl. simpl. rewrite Hdo.
  destruct st' as [r' s' w']; simpl in *. now subst.
Qed.

Lemma replies_accepted (data : Operation) (st st' : State R)
      (resp : http.Response) :
  replies baseURL hasuraSecret data st resp st' -> accepting resp ->
  postMetadata baseURL hasuraSecret data st = (Return None, st').
Proof.
  intros H Ha. rewrite (replies_postMetadata _ _ _ _ H).
  now rewrite accepting_nil.
Qed.

Lemma repliesAll_accepted (ops : list Operation) :
  forall (st st' : State R) (resps : list http.Response),
    repliesAll baseURL hasuraSecret ops st resps st' ->
    Forall accepting resps ->
    accepted baseURL hasuraSecret ops st st'.
Proof.
  induction ops as [|op ops IH]; intros st st' [|resp resps] H Hall;
    simpl in *; try tauto.
  destruct H as (st1 & H1 & Hrest).
  inversion Hall; subst.
  exists st1. split.
  - now apply replies_accepted with resp.
  - now apply IH with resps.
Qed.

Lemma repliesAll_trace (ops : list Operation) :
  forall (st st' : State R) (resps : list http.Response),
    repliesAll baseURL hasuraSecret ops st resps st' ->
    sent st' = (sent st ++ map (fun op => (tenSecondClient,
                                          requestFor baseURL hasuraSecret op)) ops)%list
    /\ warnings st' = warnings st.
Proof.
  induction ops as [|op ops IH]; intros st st' [|resp resps] H;
    simpl in *; try tauto.
  - subst. now rewrite app_nil_r.
  - destruct H as (st1 & (_ & _ & Hs & Hw) & Hrest).
    destruct (IH _ _ _ Hrest) as [Hs' Hw'].
    rewrite Hs', Hs, Hw', Hw, <- app_assoc. auto.
Qed.

(** A call that returned at all went through [client.Do] once, unless
    the URL was refused; it never writes to the logger. *)
Lemma postMetadata_trace (data : Operation) (st st' : State R)
      (r : result (option error)) :
  postMetadata baseURL hasuraSecret data st = (r, st') ->
  warnings st' = warnings st /\
  (url_Parse_error (baseURL ++ "/metadata") = None ->
   sent st' = (sent st ++ [(tenSecondClient,
                            requestFor baseURL hasuraSecret data)])%list).
Proof.
  rewrite postMetadata_unfold.
  destruct (url_Parse_error (baseURL ++ "/metadata")) as [e |].
  - intros [= <- <-]. split; [reflexivity | discriminate].
  - simpl. destruct (client_Do _ _ (remote st)) as [[resp | e] remote'];
      intros [= <- <-]; simpl; auto.
Qed.

(** A URL that does not parse: an error, and no call at all. *)
Lemma postMetadata_refused_url (data : Operation) (st : State R) (e : error) :
  url_Parse_error (baseURL ++ "/metadata") = Some e ->
  postMetadata baseURL hasuraSecret data st
  = (Return (Some (fmt.Errorf_w "problem creating request" e)), st).
Proof.
  intros H. now rewrite postMetadata_unfold, H.
Qed.

Lemma postMetadata_nil_url (data : Operation) (st st' : State R) :
  postMetadata baseURL hasuraSecret data st = (Return None, st') ->
  url_Parse_error (baseURL ++ "/metadata") = None.
Proof.
  rewrite postMetadata_unfold.
  destruct (url_Parse_error (baseURL ++ "/metadata")); [discriminate | reflexivity].
Qed.

End Submission.

(* ================================================================= *)
(** * Properties of [ApplyHasuraMetadata] *)

Lemma append_assoc (a b c : string) : (a ++ b) ++ c = a ++ b ++ c.
Proof. induction a as [|x a IH]; simpl; [reflexivity | now rewrite IH]. Qed.

Lemma append_nil_r (a : string) : a ++ "" = a.
Proof. induction a as [|x a IH]; simpl; [reflexivity | now rewrite IH]. Qed.

Lemma Contains_prefix (pre sub post : string) : Contains (pre ++ sub ++ post) sub.
Proof. now exists pre, post. Qed.

(** Destructs a chain of accepted submissions into its equations. *)
Ltac open_accepted :=
  repeat match goal with
         | H : accepted _ _ (_ :: _) _ _ |- _ => destruct H as (? & ? & H)
         | H : accepted _ _ [] _ _ |- _ => simpl in H; subst
         end.

(** Runs [ApplyHasuraMetadata] along the known results of its calls. *)
Ltac run_calls :=
  unfold ApplyHasuraMetadata, bind;
  repeat match goal with
         | H : postMetadata _ _ _ ?st = _ |- context [postMetadata _ _ _ ?st] =>
           rewrite H; cbv beta iota
         end.

Section Orchestration.

Context {R : Runtime}.
Variables url hasuraSecret : string.

(** Five accepted submissions: success, nothing logged. *)
Lemma accepted_sequence (st st' : State R) :
  accepted url hasuraSecret sequence st st' ->
  ApplyHasuraMetadata url hasuraSecret st = (Return None, st').
Proof.
  unfold sequence. intros H. open_accepted. run_calls. reflexivity.
Qed.

(** A failure of one of the first four submissions ends the run where
    it stands. *)
Lemma required_failure (k : nat) (op : Operation) (st st_k st' : State R)
      (e : error) :
  (k < 4)%nat ->
  nth_error sequence k = Some op ->
  accepted url hasuraSecret (firstn k sequence) st st_k ->
  postMetadata url hasuraSecret op st_k = (Return (Some e), st') ->
  ApplyHasuraMetadata url hasuraSecret st
  = (Return (Some (fmt.Errorf_w (nth k contexts "") e)), st').
Proof.
  intros Hk Hop Hacc Hfail.
  destruct k as [|[|[|[|k]]]]; try lia;
    simpl in Hop; injection Hop as <-;
    unfold sequence in Hacc; simpl firstn in Hacc;
    open_accepted; run_calls; reflexivity.
Qed.

(** A failure of the fifth submission is handed to the logger and the
    run ends in success. *)
Lemma user_failure (st st4 st' : State R) (e : error) :
  accepted url hasuraSecret (firstn 4 sequence) st st4 ->
  postMetadata url hasuraSecret (OpCreateObjectRelationship objRelationshipUser) st4
  = (Return (Some e), st') ->
  ApplyHasuraMetadata url hasuraSecret st
  = (Return None,
     {| remote := remote st';
        sent := sent st';
        warnings := warnings st'
                    ++ [fmt.Sprintf_s "problem creating object relationship for users" e] |}).
Proof.
  intros Hacc Hfail.
  unfold sequence in Hacc; simpl firstn in Hacc.
  open_accepted. run_calls. reflexivity.
Qed.

Lemma accepted_trace (ops : list Operation) :
  forall st st' : State R,
    ops <> [] ->
    accepted url hasuraSecret ops st st' ->
    url_Parse_error (url ++ "/metadata") = None /\
    sent st' = (sent st ++ map (fun op => (tenSecondClient,
                                          requestFor url hasuraSecret op)) ops)%list /\
    warnings st' = warnings st.
Proof.
  induction ops as [|op ops IH]; intros st st' Hne H; [congruence |].
  destruct H as (st1 & H1 & Hrest).
  pose proof (postMetadata_nil_url _ _ _ _ _ H1) as Hurl.
  destruct (postMetadata_trace _ _ _ _ _ _ H1) as [Hw Hs].
  specialize (Hs Hurl).
  destruct ops as [|op' ops].
  - simpl in Hrest. subst st'. simpl. auto.
  - destruct (IH st1 st' ltac:(discriminate) Hrest) as (_ & Hs' & Hw').
    split; [assumption |]. split.
    + rewrite Hs', Hs, <- app_assoc. reflexivity.
    + congruence.
Qed.

End Orchestration.

(* ================================================================= *)
(** * The claims *)

(** C7.  The response check does not always return: for every status
    other than 200, the body [null] -- which [json.Unmarshal] decodes
    without error into a nil pointer -- makes the check dereference that
    pointer and panic.  (Under status 200 the body is not read.) *)
Theorem checkResponse_null_body (status : Z) :
  checkResponse {| http.StatusCode := status; http.ResponseBody := "null" |}
  = if Z.eqb status 200 then Return None else Panic nilDereference.
Proof.
  unfold checkResponse. simpl http.StatusCode. change http.StatusOK with 200%Z.
  destruct (Z.eqb status 200); reflexivity.
Qed.

(** C1.  At an endpoint that answers the first request with status 500
    and the body [null], the specification's outcome is [Failed] with
    the status code and the body, but [postMetadata] panics after its one
    request instead of returning that error. *)
Theorem postMetadata_null_body :
  classify {| http.StatusCode := 500; http.ResponseBody := "null" |}
  = Failed (statusError 500 "null")
  /\ @postMetadata (scripted [reply 500 "null"]) exampleURL exampleSecret
       (OpTrackTable bucketsTable) (start _)
     = (Panic nilDereference,
        after _ 1 [(tenSecondClient,
                    requestFor exampleURL exampleSecret (OpTrackTable bucketsTable))]
              []).
Proof.
  split; vm_compute; reflexivity.
Qed.

(** The detail of an undecodable body.  When the endpoint answers a
    submission with a status other than 200 and a body on which
    [json.Unmarshal] reports an error, [postMetadata] returns an error
    whose text is [status_code: ], the status code in decimal, a line
    break, [response: ] and the body byte for byte; so the text contains
    both the status code and the raw body. *)
Theorem unparsable_body_detail {R : Runtime} (url secret : string)
        (op : Operation) (st st' : State R) (resp : http.Response) :
  replies url secret op st resp st' ->
  http.StatusCode resp <> 200%Z ->
  snd (json_Unmarshal (http.ResponseBody resp) None) <> None ->
  exists detail,
    postMetadata url secret op st = (Return (Some detail), st')
    /\ error_Error detail
       = "status_code: " ++ strconv.Itoa (http.StatusCode resp)
         ++ String newline "response: " ++ http.ResponseBody resp
    /\ Contains (error_Error detail) (strconv.Itoa (http.StatusCode resp))
    /\ Contains (error_Error detail) (http.ResponseBody resp).
Proof.
  intros Hrep Hstatus Herr.
  exists (statusError (http.StatusCode resp) (http.ResponseBody resp)).
  split; [| split; [reflexivity | split]].
  - rewrite (replies_postMetadata _ _ _ _ _ _ Hrep).
    unfold checkResponse.
    destruct (Z.eqb_spec (http.StatusCode resp) http.StatusOK) as [E | E];
      [contradiction |].
    simpl negb. cbv iota.
    destruct (json_Unmarshal (http.ResponseBody resp) None) as [p [e |]];
      [reflexivity | now elim Herr].
  - apply Contains_prefix.
  - exists ("status_code: " ++ strconv.Itoa (http.StatusCode resp)
            ++ String newline "response: "), "".
    unfold statusError, error_Error.
    now rewrite append_nil_r, !append_assoc.
Qed.

Lemma unparsable_body_detail_witness :
  exists detail,
    @postMetadata (scripted [reply 502 "<html>Bad Gateway</html>"])
      exampleURL exampleSecret (OpTrackTable filesTable) (start _)
    = (Return (Some detail),
       after _ 1 [(tenSecondClient,
                   requestFor exampleURL exampleSecret (OpTrackTable filesTable))]
             [])
    /\ error_Error detail
       = "status_code: 502" ++ String newline "response: <html>Bad Gateway</html>"
    /\ Contains (error_Error detail) "502"
    /\ Contains (error_Error detail) "<html>Bad Gateway</html>".
Proof.
  apply (@unparsable_body_detail (scripted [reply 502 "<html>Bad Gateway</html>"])
           exampleURL exampleSecret (OpTrackTable filesTable) (start _) _
           {| http.StatusCode := 502;
              http.ResponseBody := "<html>Bad Gateway</html>" |}).
  - repeat split.
  - discriminate.
  - vm_compute. discriminate.
Defined.

(** [strconv.Itoa] on the status codes of HTTP: three decimal digits,
    hundreds first. *)
Lemma Itoa_status (status : Z) :
  (100 <= status <= 999)%Z ->
  strconv.Itoa status = decimal3 status.
Proof.
  intros H.
  assert (Hall : forallb (fun k => String.eqb (strconv.Itoa (100 + Z.of_nat k))
                                              (decimal3 (100 + Z.of_nat k)))
                         (seq 0 900) = true)
    by (vm_compute; reflexivity).
  rewrite forallb_forall in Hall.
  specialize (Hall (Z.to_nat (status - 100))).
  replace (100 + Z.of_nat (Z.to_nat (status - 100)))%Z with status in Hall by lia.
  apply String.eqb_eq, Hall, in_seq. lia.
Qed.

Lemma statusError_text (status : Z) (b : string) :
  (100 <= status <= 999)%Z ->
  error_Error (statusError status b)
  = "status_code: " ++ decimal3 status ++ String newline "response: " ++ b.
Proof.
  intros H. unfold statusError, error_Error. now rewrite (Itoa_status status H).
Qed.

(** C6.  A body that is not the structured error shape, and no detail:
    the body [null] is no object -- [json.Unmarshal] decodes it to the
    nil pointer, without an error -- so under status 404 the
    specification's outcome is [Failed] with the detail [status_code:
    404], a line break and [response: null]; the response check panics
    instead and returns no detail at all. *)
Theorem null_body_no_detail :
  json.decodeTop "null" = json.TopNull
  /\ json_Unmarshal "null" None = (None, None)
  /\ classify {| http.StatusCode := 404; http.ResponseBody := "null" |}
     = Failed (errorString ("status_code: 404" ++ String newline "response: null"))
  /\ checkResponse {| http.StatusCode := 404; http.ResponseBody := "null" |}
     = Panic nilDereference.
Proof.
  repeat split; vm_compute; reflexivity.
Qed.

(** C3.  When the buckets table was tracked and the submission for the
    files table fails, [ApplyHasuraMetadata] stops in the state that
    submission left: it made the two requests for the two tables and no
    other -- none for the three relationships -- logged nothing, and
    returns an error that wraps the failure and whose text mentions the
    files table. *)
Theorem files_table_failure {R : Runtime} (url secret : string)
        (st st1 st2 : State R) (e : error) :
  postMetadata url secret (OpTrackTable bucketsTable) st = (Return None, st1) ->
  postMetadata url secret (OpTrackTable filesTable) st1 = (Return (Some e), st2) ->
  let calls := [(tenSecondClient, requestFor url secret (OpTrackTable bucketsTable));
                (tenSecondClient, requestFor url secret (OpTrackTable filesTable))] in
  exists e',
    ApplyHasuraMetadata url secret st = (Return (Some e'), st2)
    /\ Unwrap e' = Some e
    /\ error_Error e' = "problem adding metadata for the files table: " ++ error_Error e
    /\ Contains (error_Error e') "files table"
    /\ sent st2 = (sent st ++ calls)%list
    /\ warnings st2 = warnings st
    /\ forall op, In op (skipn 2 sequence) ->
                  ~ In (tenSecondClient, requestFor url secret op) calls.
Proof.
  intros H1 H2 calls.
  exists (fmt.Errorf_w "problem adding metadata for the files table" e).
  split; [| split; [reflexivity | split; [reflexivity | split]]].
  - apply (required_failure url secret 1 (OpTrackTable filesTable) st st1 st2 e);
      [lia | reflexivity | | exact H2].
    exists st1. now split.
  - exists "problem adding metadata for the ", (": " ++ error_Error e).
    reflexivity.
  - pose proof (postMetadata_nil_url _ _ _ _ _ H1) as Hurl.
    destruct (postMetadata_trace _ _ _ _ _ _ H1) as [Hw1 Hs1].
    destruct (postMetadata_trace _ _ _ _ _ _ H2) as [Hw2 Hs2].
    rewrite (Hs2 Hurl), (Hs1 Hurl), <- app_assoc.
    repeat split; [congruence |].
    intros op Hop Hin. simpl in Hop.
    destruct Hop as [<- | [<- | [<- | []]]];
      destruct Hin as [Hin | [Hin | []]];
      apply (f_equal (fun c => http.Body (snd c))) in Hin;
      vm_compute in Hin; discriminate.
Qed.

Lemma files_table_failure_witness :
  let script := [ok200; reply 500 "{'path':'$.args','error':'boom','code':'unexpected'}"] in
  exists e',
    @ApplyHasuraMetadata (scripted script) exampleURL exampleSecret (start _)
    = (Return (Some e'),
       after _ 2 [(tenSecondClient,
                   requestFor exampleURL exampleSecret (OpTrackTable bucketsTable));
                  (tenSecondClient,
                   requestFor exampleURL exampleSecret (OpTrackTable filesTable))]
             [])
    /\ Contains (error_Error e') "files table".
Proof.
  intros script.
  destruct (@files_table_failure (scripted script) exampleURL exampleSecret
              (start _)
              (after _ 1 [(tenSecondClient,
                           requestFor exampleURL exampleSecret
                                      (OpTrackTable bucketsTable))] [])
              (after _ 2 [(tenSecondClient,
                           requestFor exampleURL exampleSecret
                                      (OpTrackTable bucketsTable));
                          (tenSecondClient,
                           requestFor exampleURL exampleSecret
                                      (OpTrackTable filesTable))] [])
              (statusError 500
                 (q "{'path':'$.args','error':'boom','code':'unexpected'}")))
    as (e' & Hrun & _ & _ & Hmentions & _).
  - vm_compute. reflexivity.
  - vm_compute. reflexivity.
  - exists e'. split; assumption.
Defined.

(** A returned error of the users relationship.  When the first four
    submissions are answered with status 200 and the call of
    [postMetadata] for the relationship from files to users returns an
    error,
    [ApplyHasuraMetadata] returns nil, and the log grows by exactly one
    warning, which names the users relationship and carries the text of
    the failure. *)
Theorem users_relationship_failure {R : Runtime} (url secret : string)
        (st st4 st5 : State R) (resps : list http.Response) (e : error) :
  repliesAll url secret (firstn 4 sequence) st resps st4 ->
  Forall (fun resp => http.StatusCode resp = 200%Z) resps ->
  postMetadata url secret (OpCreateObjectRelationship objRelationshipUser) st4
  = (Return (Some e), st5) ->
  let w := "problem creating object relationship for users: " ++ error_Error e in
  ApplyHasuraMetadata url secret st
  = (Return None,
     {| remote := remote st5; sent := sent st5; warnings := warnings st ++ [w] |})
  /\ Contains w "users".
Proof.
  intros Hrep H200 Hfail w. split.
  - assert (Hacc : accepted url secret (firstn 4 sequence) st st4).
    { eapply repliesAll_accepted; [exact Hrep |].
      eapply Forall_impl; [| exact H200]. apply status200_accepting. }
    rewrite (user_failure url secret st st4 st5 e Hacc Hfail).
    destruct (postMetadata_trace _ _ _ _ _ _ Hfail) as [Hw5 _].
    destruct (repliesAll_trace _ _ _ _ _ _ Hrep) as [_ Hw4].
    rewrite Hw5, Hw4. reflexivity.
  - exists "problem creating object relationship for ", (": " ++ error_Error e).
    reflexivity.
Qed.

Lemma users_relationship_failure_witness :
  let script := [ok200; ok200; ok200; ok200;
                 reply 500 "{'path':'$.args','error':'table users not found','code':'not-exists'}"] in
  exists st_end,
    @ApplyHasuraMetadata (scripted script) exampleURL exampleSecret (start _)
    = (Return None, st_end)
    /\ List.length (warnings st_end) = 1%nat
    /\ Forall (fun w => Contains w "users") (warnings st_end).
Proof.
  intros script.
  pose (calls n := map (fun op => (tenSecondClient,
                                   requestFor exampleURL exampleSecret op))
                       (firstn n sequence)).
  destruct (@users_relationship_failure (scripted script) exampleURL exampleSecret
              (start _) (after _ 4 (calls 4%nat) []) (after _ 5 (calls 5%nat) [])
              (repeat {| http.StatusCode := 200; http.ResponseBody := "" |} 4)
              (statusError 500
                 (q "{'path':'$.args','error':'table users not found','code':'not-exists'}")))
    as [Hrun Hmentions].
  - exists (after _ 1 (calls 1%nat) []). split; [repeat split |].
    exists (after _ 2 (calls 2%nat) []). split; [repeat split |].
    exists (after _ 3 (calls 3%nat) []). split; [repeat split |].
    exists (after _ 4 (calls 4%nat) []). split; [repeat split |].
    reflexivity.
  - repeat constructor.
  - vm_compute. reflexivity.
  - eexists. split; [exact Hrun |]. split; [reflexivity |].
    constructor; [exact Hmentions | constructor].
Defined.

(** C4.  Only the users relationship fails, and the run does not end in
    success: at an endpoint that answers the first four submissions with
    status 200 and the fifth with status 500 and the body [null] -- a
    [Failed] outcome by the specification -- [ApplyHasuraMetadata] makes
    its five calls and panics, with no warning logged. *)
Theorem users_relationship_null_body :
  classify {| http.StatusCode := 500; http.ResponseBody := "null" |}
  = Failed (statusError 500 "null")
  /\ @ApplyHasuraMetadata
       (scripted [ok200; ok200; ok200; ok200; reply 500 "null"])
       exampleURL exampleSecret (start _)
     = (Panic nilDereference,
        after _ 5 (callsOf exampleURL exampleSecret 5) []).
Proof.
  split; vm_compute; reflexivity.
Qed.

(** C5.  When all five submissions are answered with status 200,
    [ApplyHasuraMetadata] returns nil, logs nothing, and has made exactly
    five calls, each a POST with the ten-second client, in the order:
    track [storage.buckets], track [storage.files], object relationship
    [files.bucket], array relationship [buckets.files], object
    relationship [files.uploadedByUser]; their bodies are the five texts
    of [bodies]. *)
Theorem all_ok_five_posts {R : Runtime} (url secret : string)
        (st st' : State R) (resps : list http.Response) :
  repliesAll url secret sequence st resps st' ->
  Forall (fun resp => http.StatusCode resp = 200%Z) resps ->
  ApplyHasuraMetadata url secret st = (Return None, st')
  /\ sent st' = (sent st ++ map (fun op => (tenSecondClient, requestFor url secret op))
                               sequence)%list
  /\ map (fun op => http.Method (requestFor url secret op)) sequence = repeat "POST" 5
  /\ map (fun op => http.Body (requestFor url secret op)) sequence = bodies
  /\ warnings st' = warnings st.
Proof.
  intros Hrep H200.
  destruct (repliesAll_trace _ _ _ _ _ _ Hrep) as [Hs Hw].
  split; [| split; [exact Hs | split; [reflexivity | split; [| exact Hw]]]].
  - apply accepted_sequence.
    eapply repliesAll_accepted; [exact Hrep |].
    eapply Forall_impl; [| exact H200]. apply status200_accepting.
  - vm_compute. reflexivity.
Qed.

Lemma all_ok_five_posts_witness :
  @ApplyHasuraMetadata (scripted (repeat ok200 5)) exampleURL exampleSecret (start _)
  = (Return None,
     after _ 5 (map (fun op => (tenSecondClient,
                                requestFor exampleURL exampleSecret op)) sequence) []).
Proof.
  pose (calls n := map (fun op => (tenSecondClient,
                                   requestFor exampleURL exampleSecret op))
                       (firstn n sequence)).
  apply (@all_ok_five_posts (scripted (repeat ok200 5)) exampleURL exampleSecret
           (start _) (after _ 5 (calls 5%nat) [])
           (repeat {| http.StatusCode := 200; http.ResponseBody := "" |} 5)).
  - exists (after _ 1 (calls 1%nat) []). split; [repeat split |].
    exists (after _ 2 (calls 2%nat) []). split; [repeat split |].
    exists (after _ 3 (calls 3%nat) []). split; [repeat split |].
    exists (after _ 4 (calls 4%nat) []). split; [repeat split |].
    exists (after _ 5 (calls 5%nat) []). split; [repeat split |].
    reflexivity.
  - repeat constructor.
Defined.

(** C8.  When the URL [baseURL/metadata] parses, a call of
    [postMetadata] makes exactly one call to [client.Do]: with a client
    whose timeout is ten seconds, and a request with method POST, that
    URL, the content-type header and the admin-secret header, and the
    serialized operation as body.  When that call reports a transport
    error (a timeout is one), [postMetadata] returns an error that wraps
    it, and no second call is made. *)
Theorem postMetadata_single_post {R : Runtime} (baseURL secret : string)
        (data : Operation) (st : State R)
        (r : http.Response + error) (remote' : Remote) :
  url_Parse_error (baseURL ++ "/metadata") = None ->
  client_Do tenSecondClient (requestFor baseURL secret data) (remote st)
  = (r, remote') ->
  let req := requestFor baseURL secret data in
  exists res,
    postMetadata baseURL secret data st
    = (res, {| remote := remote';
               sent := sent st ++ [(tenSecondClient, req)];
               warnings := warnings st |})
    /\ (forall e, r = inr e ->
                  res = Return (Some (fmt.Errorf_w "problem executing request" e)))
    /\ (forall resp, r = inl resp -> res = checkResponse resp)
    /\ http.Method req = "POST"
    /\ http.URL req = baseURL ++ "/metadata"
    /\ http.Header req = [("Content-Type", "application/json; charset=UTF-8");
                          ("X-Hasura-Admin-Secret", secret)]
    /\ http.Body req = fst (json_Marshal data)
    /\ http.Timeout tenSecondClient = (timeout * time.Second)%Z
    /\ http.Timeout tenSecondClient = 10000000000%Z.
Proof.
  intros Hurl Hdo req.
  rewrite postMetadata_unfold, Hurl. simpl fst. simpl snd. rewrite Hdo.
  destruct r as [resp | e].
  - exists (checkResponse resp). repeat split; try reflexivity.
    + intros e [=].
    + now intros ? [= <-].
  - exists (Return (Some (fmt.Errorf_w "problem executing request" e))).
    repeat split; try reflexivity.
    + now intros ? [= <-].
    + intros resp [=].
Qed.

Lemma postMetadata_single_post_witness :
  @postMetadata (scripted []) exampleURL exampleSecret
    (OpCreateArrayRelationship arrRelationship) (start _)
  = (Return (Some (fmt.Errorf_w "problem executing request"
                                (errorString "connection refused"))),
     after _ 1 [(tenSecondClient,
                 requestFor exampleURL exampleSecret
                            (OpCreateArrayRelationship arrRelationship))] []).
Proof.
  destruct (@postMetadata_single_post (scripted []) exampleURL exampleSecret
              (OpCreateArrayRelationship arrRelationship) (start _)
              (inr (errorString "connection refused")) 1%nat)
    as (res & Hrun & Herr & _).
  - reflexivity.
  - reflexivity.
  - rewrite Hrun, (Herr _ eq_refl). reflexivity.
Defined.

Lemma json_Marshal_deterministic_witness :
  let entries := [("id", "id"); ("created_at", "createdAt");
                  ("bucket_id", "bucketId")] in
  let op m :=
      withColumnNames (OpTrackTable filesTable) (mk_map m) in
  json_Marshal (op entries) = json_Marshal (op (rev entries)).
Proof.
  intros entries op.
  apply json_Marshal_deterministic.
  - simpl. repeat constructor; simpl; intuition discriminate.
  - split; [| reflexivity]. simpl. apply Permutation_rev.
Defined.

(** C10.  Whatever mix of [Applied] and [AlreadyApplied] the five
    submissions meet, in one run and in another, every call of
    [postMetadata] returns nil and [ApplyHasuraMetadata] returns nil with
    nothing logged: the returned values of the two runs are the same, so
    a caller cannot tell a fresh application from a repeated one. *)
Theorem outcomes_collapse {R1 R2 : Runtime} (url secret : string)
        (st1 st1' : State R1) (st2 st2' : State R2)
        (resps1 resps2 : list http.Response) :
  repliesAll url secret sequence st1 resps1 st1' ->
  repliesAll url secret sequence st2 resps2 st2' ->
  Forall accepting resps1 ->
  Forall accepting resps2 ->
  accepted url secret sequence st1 st1'
  /\ accepted url secret sequence st2 st2'
  /\ fst (ApplyHasuraMetadata url secret st1) = Return None
  /\ fst (ApplyHasuraMetadata url secret st2) = Return None
  /\ warnings st1' = warnings st1
  /\ warnings st2' = warnings st2.
Proof.
  intros Hrep1 Hrep2 Ha1 Ha2.
  pose proof (repliesAll_accepted _ _ _ _ _ _ Hrep1 Ha1) as Hacc1.
  pose proof (repliesAll_accepted _ _ _ _ _ _ Hrep2 Ha2) as Hacc2.
  rewrite (accepted_sequence _ _ _ _ Hacc1), (accepted_sequence _ _ _ _ Hacc2).
  destruct (repliesAll_trace _ _ _ _ _ _ Hrep1) as [_ Hw1].
  destruct (repliesAll_trace _ _ _ _ _ _ Hrep2) as [_ Hw2].
  repeat split; assumption.
Qed.

Lemma outcomes_collapse_witness :
  let fresh := repeat ok200 5 in
  let again := [reply 400 "{'path':'$.args','error':'already tracked','code':'already-tracked'}";
                reply 400 "{'path':'$.args','error':'already tracked','code':'already-tracked'}";
                reply 400 "{'code':'already-exists'}";
                reply 400 "{'code':'already-exists'}";
                reply 400 "{'code':'already-exists'}"] in
  fst (@ApplyHasuraMetadata (scripted fresh) exampleURL exampleSecret (start _))
  = Return None
  /\ fst (@ApplyHasuraMetadata (scripted again) exampleURL exampleSecret (start _))
     = Return None.
Proof.
  intros fresh again.
  pose (calls n := map (fun op => (tenSecondClient,
                                   requestFor exampleURL exampleSecret op))
                       (firstn n sequence)).
  pose (tracked := {| http.StatusCode := 400;
                      http.ResponseBody :=
                        q "{'path':'$.args','error':'already tracked','code':'already-tracked'}" |}).
  pose (exists_ := {| http.StatusCode := 400;
                      http.ResponseBody := q "{'code':'already-exists'}" |}).
  destruct (@outcomes_collapse (scripted fresh) (scripted again)
              exampleURL exampleSecret
              (start _) (after _ 5 (calls 5%nat) [])
              (start _) (after _ 5 (calls 5%nat) [])
              (repeat {| http.StatusCode := 200; http.ResponseBody := "" |} 5)
              [tracked; tracked; exists_; exists_; exists_])
    as (_ & _ & H1 & H2 & _).
  - exists (after _ 1 (calls 1%nat) []). split; [repeat split |].
    exists (after _ 2 (calls 2%nat) []). split; [repeat split |].
    exists (after _ 3 (calls 3%nat) []). split; [repeat split |].
    exists (after _ 4 (calls 4%nat) []). split; [repeat split |].
    exists (after _ 5 (calls 5%nat) []). split; [repeat split |].
    reflexivity.
  - exists (after _ 1 (calls 1%nat) []). split; [repeat split |].
    exists (after _ 2 (calls 2%nat) []). split; [repeat split |].
    exists (after _ 3 (calls 3%nat) []). split; [repeat split |].
    exists (after _ 4 (calls 4%nat) []). split; [repeat split |].
    exists (after _ 5 (calls 5%nat) []). split; [repeat split |].
    reflexivity.
  - repeat constructor; left; reflexivity.
  - repeat constructor; right; vm_compute; reflexivity.
  - split; assumption.
Defined.

(** The weakest reading already fails for the fourth operation: at an
    endpoint that rejects only the fourth submission, the array
    relationship, the run logs nothing. *)
Lemma fourth_operation_not_tolerated : ~ tolerated 3.
Proof.
  intros H.
  pose (script := [ok200; ok200; ok200; reply 500 "{'code':'unexpected'}"; ok200]).
  pose (calls := map (fun op => (tenSecondClient,
                                 requestFor exampleURL exampleSecret op))
                     (firstn 4 sequence)).
  destruct (H (scripted script) exampleURL exampleSecret
              (OpCreateArrayRelationship arrRelationship)
              (start _) (after _ 3 (removelast calls) []) (after _ 4 calls [])
              (statusError 500 (q "{'code':'unexpected'}")))
    as (r & st_end & Hrun & Hlogged & _).
  - reflexivity.
  - exists (after _ 1 (firstn 1 calls) []). split; [vm_compute; reflexivity |].
    exists (after _ 2 (firstn 2 calls) []). split; [vm_compute; reflexivity |].
    exists (after _ 3 (firstn 3 calls) []). split; [vm_compute; reflexivity |].
    reflexivity.
  - vm_compute. reflexivity.
  - vm_compute in Hrun. injection Hrun as _ <-.
    simpl in Hlogged. lia.
Qed.

Lemma bestEffort_tolerated (k : nat) : bestEffort k -> tolerated k.
Proof.
  intros H R url secret op st st_k st' e Hop Hacc Hfail.
  destruct (H R url secret op st st_k st' e Hop Hacc Hfail)
    as (w & _ & (r & st_end & more & Hrun & Hw & Hr) & _).
  exists r, st_end. split; [exact Hrun |]. split; [| exact Hr].
  rewrite Hw, length_app. simpl. lia.
Qed.

(** C2, as the code has it.  The first four operations of the sequence
    are critical: a failed submission of any of them ends the run at
    once with an error that wraps the failure.  The fifth operation, the
    relationship to the users table of the authentication service, is
    best-effort: its failure is logged as a warning that carries its
    text, no further call is made, and the run returns nil. *)
Theorem failure_policy :
  critical 0 /\ critical 1 /\ critical 2 /\ critical 3 /\ bestEffort 4.
Proof.
  assert (Hcrit : forall k, (k < 4)%nat -> critical k).
  { intros k Hk R url secret op st st_k st' e Hop Hacc Hfail.
    eexists. split.
    - eapply required_failure; eassumption.
    - reflexivity. }
  repeat (split; [apply Hcrit; lia |]).
  intros R url secret op st st_k st' e Hop Hacc Hfail.
  simpl in Hop. injection Hop as <-.
  pose proof (user_failure url secret st st_k st' e Hacc Hfail) as Hrun.
  exists (usersWarning e). split; [| split].
  - exists "problem creating object relationship for users: ", "".
    unfold usersWarning, fmt.Sprintf_s. now rewrite append_nil_r.
  - do 2 eexists. exists []. split; [exact Hrun |]. split; [reflexivity |].
    intros e' [=].
  - intros st_end Hend. simpl in Hend. subst st_end. exact Hrun.
Qed.

Lemma failure_policy_witness :
  let fourth := [ok200; ok200; ok200; reply 500 "{'code':'unexpected'}"; ok200] in
  let fifth := [ok200; ok200; ok200; ok200; reply 500 "{'code':'unexpected'}"] in
  let e := statusError 500 (q "{'code':'unexpected'}") in
  (exists e',
      @ApplyHasuraMetadata (scripted fourth) exampleURL exampleSecret (start _)
      = (Return (Some e'), after _ 4 (callsOf exampleURL exampleSecret 4) [])
      /\ Unwrap e' = Some e)
  /\ (exists w,
         Contains w (error_Error e)
         /\ @ApplyHasuraMetadata (scripted fifth) exampleURL exampleSecret (start _)
            = (Return None, after _ 5 (callsOf exampleURL exampleSecret 5) [w])).
Proof.
  intros fourth fifth e.
  destruct failure_policy as (_ & _ & _ & Hfourth & Hfifth).
  split.
  - apply (Hfourth (scripted fourth) exampleURL exampleSecret
                   (OpCreateArrayRelationship arrRelationship)
                   (start _) (after _ 3 (callsOf exampleURL exampleSecret 3) [])).
    + reflexivity.
    + exists (after _ 1 (callsOf exampleURL exampleSecret 1) []).
      split; [vm_compute; reflexivity |].
      exists (after _ 2 (callsOf exampleURL exampleSecret 2) []).
      split; [vm_compute; reflexivity |].
      exists (after _ 3 (callsOf exampleURL exampleSecret 3) []).
      split; [vm_compute; reflexivity |].
      reflexivity.
    + vm_compute. reflexivity.
  - destruct (Hfifth (scripted fifth) exampleURL exampleSecret
                     (OpCreateObjectRelationship objRelationshipUser)
                     (start _) (after _ 4 (callsOf exampleURL exampleSecret 4) [])
                     (after _ 5 (callsOf exampleURL exampleSecret 5) []) e)
      as (w & Hw & _ & Hnil).
    + reflexivity.
    + exists (after _ 1 (callsOf exampleURL exampleSecret 1) []).
      split; [vm_compute; reflexivity |].
      exists (after _ 2 (callsOf exampleURL exampleSecret 2) []).
      split; [vm_compute; reflexivity |].
      exists (after _ 3 (callsOf exampleURL exampleSecret 3) []).
      split; [vm_compute; reflexivity |].
      exists (after _ 4 (callsOf exampleURL exampleSecret 4) []).
      split; [vm_compute; reflexivity |].
      reflexivity.
    + vm_compute. reflexivity.
    + exists w. split; [exact Hw |]. apply Hnil. reflexivity.
Defined.

(** C2, as stated, fails: the fourth operation is not best-effort.  At an
    endpoint that rejects only the fourth submission, the array
    relationship, the run returns that failure, wrapped, after four
    calls, and logs nothing. *)
Lemma fourth_operation_not_bestEffort : ~ bestEffort 3.
Proof.
  intros H. exact (fourth_operation_not_tolerated (bestEffort_tolerated 3 H)).
Qed.

(* ================================================================= *)
(** * Every run of [ApplyHasuraMetadata] *)

Section Runs.

Context {R : Runtime}.
Variables url secret : string.

(** One call of [postMetadata] when the URL parses: nothing is logged
    and the trace grows by the call for [data], whatever the result. *)
Lemma postMetadata_step (data : Operation) (st : State R) :
  url_Parse_error (url ++ "/metadata") = None ->
  warnings (snd (postMetadata url secret data st)) = warnings st /\
  sent (snd (postMetadata url secret data st))
  = (sent st ++ [(tenSecondClient, requestFor url secret data)])%list.
Proof.
  intros Hurl.
  destruct (postMetadata url secret data st) as [r st'] eqn:H.
  destruct (postMetadata_trace _ _ _ _ _ _ H) as [Hw Hs]. auto.
Qed.

(** What a run can be, when the URL parses: it made the calls for the
    first [n] operations, one to five of them; it returns nil only after
    all five, with at most the one warning about the users relationship;
    it returns an error only for one of the first four operations, the
    error wrapped in that operation's context, with nothing logged; and
    a panic is that of a call, with nothing logged. *)
Lemma run_shape (st : State R) :
  url_Parse_error (url ++ "/metadata") = None ->
  exists n, (1 <= n <= 5)%nat /\
    sent (snd (ApplyHasuraMetadata url secret st))
    = (sent st ++ callsOf url secret n)%list /\
    match fst (ApplyHasuraMetadata url secret st) with
    | Return None =>
      n = 5%nat /\
      (warnings (snd (ApplyHasuraMetadata url secret st)) = warnings st \/
       exists e, warnings (snd (ApplyHasuraMetadata url secret st))
                 = (warnings st ++ [usersWarning e])%list)
    | Return (Some e') =>
      (n <= 4)%nat /\
      warnings (snd (ApplyHasuraMetadata url secret st)) = warnings st /\
      exists e, e' = fmt.Errorf_w (nth (n - 1) contexts "") e
    | Panic _ =>
      warnings (snd (ApplyHasuraMetadata url secret st)) = warnings st
    end.
Proof.
  intros Hurl.
  unfold ApplyHasuraMetadata, bind.
  pose proof (postMetadata_step (OpTrackTable bucketsTable) st Hurl) as [W1 S1].
  destruct (postMetadata url secret (OpTrackTable bucketsTable) st)
    as [[[e |] | msg] st1]; simpl in W1, S1; simpl fst; simpl snd.
  { exists 1%nat. repeat split; try lia; try assumption. now exists e. }
  2: { exists 1%nat. repeat split; try lia; assumption. }
  pose proof (postMetadata_step (OpTrackTable filesTable) st1 Hurl) as [W2 S2].
  destruct (postMetadata url secret (OpTrackTable filesTable) st1)
    as [[[e |] | msg] st2]; simpl in W2, S2; simpl fst; simpl snd.
  { exists 2%nat. rewrite S2, S1, <- app_assoc.
    repeat split; try lia; try congruence. now exists e. }
  2: { exists 2%nat. rewrite S2, S1, <- app_assoc.
       repeat split; try lia; congruence. }
  pose proof (postMetadata_step (OpCreateObjectRelationship objRelationshipBuckets)
                                st2 Hurl) as [W3 S3].
  destruct (postMetadata url secret
                         (OpCreateObjectRelationship objRelationshipBuckets) st2)
    as [[[e |] | msg] st3]; simpl in W3, S3; simpl fst; simpl snd.
  { exists 3%nat. rewrite S3, S2, S1, <- !app_assoc.
    repeat split; try lia; try congruence. now exists e. }
  2: { exists 3%nat. rewrite S3, S2, S1, <- !app_assoc.
       repeat split; try lia; congruence. }
  pose proof (postMetadata_step (OpCreateArrayRelationship arrRelationship)
                                st3 Hurl) as [W4 S4].
  destruct (postMetadata url secret (OpCreateArrayRelationship arrRelationship) st3)
    as [[[e |] | msg] st4]; simpl in W4, S4; simpl fst; simpl snd.
  { exists 4%nat. rewrite S4, S3, S2, S1, <- !app_assoc.
    repeat split; try lia; try congruence. now exists e. }
  2: { exists 4%nat. rewrite S4, S3, S2, S1, <- !app_assoc.
       repeat split; try lia; congruence. }
  pose proof (postMetadata_step (OpCreateObjectRelationship objRelationshipUser)
                                st4 Hurl) as [W5 S5].
  destruct (postMetadata url secret
                         (OpCreateObjectRelationship objRelationshipUser) st4)
    as [[[e |] | msg] st5]; simpl in W5, S5; simpl fst; simpl snd;
    exists 5%nat; rewrite S5, S4, S3, S2, S1, <- !app_assoc.
  - repeat split; try lia. right. exists e. simpl. unfold usersWarning. congruence.
  - repeat split; try lia. left. congruence.
  - repeat split; try lia. congruence.
Qed.

(** A URL that does not parse: the run ends at the first operation,
    without a call and without a warning. *)
Lemma run_refused (st : State R) (e : error) :
  url_Parse_error (url ++ "/metadata") = Some e ->
  ApplyHasuraMetadata url secret st
  = (Return (Some (fmt.Errorf_w "problem adding metadata for the buckets table"
                     (fmt.Errorf_w "problem creating request" e))), st).
Proof.
  intros Hurl. unfold ApplyHasuraMetadata, bind.
  now rewrite (postMetadata_refused_url _ _ _ _ _ Hurl).
Qed.

End Runs.

(** X1.  Whatever the endpoint does and however the run ends -- nil, an
    error or a panic -- the calls [ApplyHasuraMetadata] made are those for
    the first [n] operations of the sequence, in order, for some [n] up to
    five: no operation is skipped, repeated or submitted out of order. *)
Theorem requests_follow_sequence {R : Runtime} (url secret : string)
        (st : State R) :
  exists n, (n <= 5)%nat /\
    sent (snd (ApplyHasuraMetadata url secret st))
    = (sent st ++ callsOf url secret n)%list.
Proof.
  destruct (url_Parse_error (url ++ "/metadata")) as [e |] eqn:Hurl.
  - exists 0%nat. rewrite (run_refused url secret st e Hurl). simpl.
    split; [lia | now rewrite app_nil_r].
  - destruct (run_shape url secret st Hurl) as (n & Hn & Hs & _).
    exists n. split; [lia | exact Hs].
Qed.

(** X2.  [ApplyHasuraMetadata] returns nil only after it has submitted
    all five operations, and then it has logged nothing or exactly the one
    warning about the users relationship. *)
Theorem nil_after_all_five {R : Runtime} (url secret : string)
        (st st' : State R) :
  ApplyHasuraMetadata url secret st = (Return None, st') ->
  sent st' = (sent st ++ callsOf url secret 5)%list /\
  (warnings st' = warnings st \/
   exists e, warnings st' = (warnings st ++ [usersWarning e])%list).
Proof.
  intros Hrun.
  destruct (url_Parse_error (url ++ "/metadata")) as [e |] eqn:Hurl.
  - rewrite (run_refused url secret st e Hurl) in Hrun. discriminate.
  - destruct (run_shape url secret st Hurl) as (n & _ & Hs & Hr).
    rewrite Hrun in Hs, Hr. simpl in Hs, Hr.
    destruct Hr as [-> Hw]. auto.
Qed.

Lemma nil_after_all_five_witness :
  let script := [ok200; ok200; ok200; ok200; inr (errorString "timeout")] in
  let st' := after script 5 (callsOf exampleURL exampleSecret 5)
                   [usersWarning (fmt.Errorf_w "problem executing request"
                                               (errorString "timeout"))] in
  sent st' = ([] ++ callsOf exampleURL exampleSecret 5)%list /\
  (warnings st' = [] \/
   exists e, warnings st' = ([] ++ [usersWarning e])%list).
Proof.
  intros script st'.
  apply (@nil_after_all_five (scripted script) exampleURL exampleSecret
                             (start _) st').
  vm_compute. reflexivity.
Defined.

(** Builds the chain of accepted submissions from the equations at
    hand. *)
Ltac close_accepted :=
  simpl; repeat (eexists; split; [eassumption |]); reflexivity.

(** Where a returned error comes from: one of the first four operations,
    submitted after the ones before it were accepted, whose call of
    [postMetadata] returned the error that the run wraps. *)
Lemma run_error_origin {R : Runtime} (url secret : string)
      (st st' : State R) (e' : error) :
  ApplyHasuraMetadata url secret st = (Return (Some e'), st') ->
  exists k op st_k e,
    (k < 4)%nat
    /\ nth_error sequence k = Some op
    /\ accepted url secret (firstn k sequence) st st_k
    /\ postMetadata url secret op st_k = (Return (Some e), st')
    /\ e' = fmt.Errorf_w (nth k contexts "") e.
Proof.
  unfold ApplyHasuraMetadata, bind.
  destruct (postMetadata url secret (OpTrackTable bucketsTable) st)
    as [[[e |] | m] st1] eqn:H1; [| | discriminate].
  { intros [= <- <-]. exists 0%nat, (OpTrackTable bucketsTable), st, e.
    repeat split; try lia; try assumption. }
  destruct (postMetadata url secret (OpTrackTable filesTable) st1)
    as [[[e |] | m] st2] eqn:H2; [| | discriminate].
  { intros [= <- <-]. exists 1%nat, (OpTrackTable filesTable), st1, e.
    split; [lia |]. split; [reflexivity |].
    split; [close_accepted |]. split; [assumption | reflexivity]. }
  destruct (postMetadata url secret
              (OpCreateObjectRelationship objRelationshipBuckets) st2)
    as [[[e |] | m] st3] eqn:H3; [| | discriminate].
  { intros [= <- <-].
    exists 2%nat, (OpCreateObjectRelationship objRelationshipBuckets), st2, e.
    split; [lia |]. split; [reflexivity |].
    split; [close_accepted |]. split; [assumption | reflexivity]. }
  destruct (postMetadata url secret (OpCreateArrayRelationship arrRelationship) st3)
    as [[[e |] | m] st4] eqn:H4; [| | discriminate].
  { intros [= <- <-].
    exists 3%nat, (OpCreateArrayRelationship arrRelationship), st3, e.
    split; [lia |]. split; [reflexivity |].
    split; [close_accepted |]. split; [assumption | reflexivity]. }
  destruct (postMetadata url secret
              (OpCreateObjectRelationship objRelationshipUser) st4)
    as [[[e |] | m] st5]; discriminate.
Qed.

Lemma firstn_snoc {A : Type} (l : list A) (k : nat) (x : A) :
  nth_error l k = Some x -> firstn (S k) l = (firstn k l ++ [x])%list.
Proof.
  revert k. induction l as [|y l IH]; intros [|k] H; try discriminate.
  - injection H as ->. reflexivity.
  - simpl in H. change (firstn (S (S k)) (y :: l)) with (y :: firstn (S k) l).
    now rewrite (IH k H).
Qed.

(** Accepted submissions log nothing, and when the URL parses each of
    them is one call. *)
Lemma accepted_log {R : Runtime} (url secret : string) (ops : list Operation) :
  forall st st' : State R,
    accepted url secret ops st st' -> warnings st' = warnings st.
Proof.
  induction ops as [|op ops IH]; intros st st' H; simpl in H.
  - now subst.
  - destruct H as (st1 & H1 & Hrest).
    destruct (postMetadata_trace _ _ _ _ _ _ H1) as [Hw _].
    rewrite (IH _ _ Hrest). exact Hw.
Qed.

Lemma accepted_calls {R : Runtime} (url secret : string) (ops : list Operation) :
  url_Parse_error (url ++ "/metadata") = None ->
  forall st st' : State R,
    accepted url secret ops st st' ->
    sent st' = (sent st ++ map (fun op => (tenSecondClient,
                                          requestFor url secret op)) ops)%list.
Proof.
  intros Hurl. induction ops as [|op ops IH]; intros st st' H; simpl in H.
  - subst. now rewrite app_nil_r.
  - destruct H as (st1 & H1 & Hrest).
    destruct (postMetadata_trace _ _ _ _ _ _ H1) as [_ Hs].
    rewrite (IH _ _ Hrest), (Hs Hurl), <- app_assoc. reflexivity.
Qed.

(** X3.  An error returned by [ApplyHasuraMetadata] is always the error
    of one of the first four operations -- the very error that
    operation's call of [postMetadata] returned, in a run where the
    operations before it were accepted -- wrapped in that operation's
    context; it is never the error of the users relationship.  Such a run
    ends in the state the failed call left: it has logged nothing and has
    made no call past the operation that failed. *)
Theorem returned_error_shape {R : Runtime} (url secret : string)
        (st st' : State R) (e' : error) :
  ApplyHasuraMetadata url secret st = (Return (Some e'), st') ->
  warnings st' = warnings st /\
  exists k op st_k e,
    (k < 4)%nat /\
    nth_error sequence k = Some op /\
    accepted url secret (firstn k sequence) st st_k /\
    postMetadata url secret op st_k = (Return (Some e), st') /\
    e' = fmt.Errorf_w (nth k contexts "") e /\
    Unwrap e' = Some e /\
    (sent st' = (sent st ++ callsOf url secret (S k))%list \/
     (k = 0%nat /\ st' = st /\ url_Parse_error (url ++ "/metadata") <> None)).
Proof.
  intros Hrun.
  destruct (run_error_origin url secret st st' e' Hrun)
    as (k & op & st_k & e & Hk & Hop & Hacc & Hfail & ->).
  assert (Hshape :
            warnings st' = warnings st /\
            (sent st' = (sent st ++ callsOf url secret (S k))%list \/
             (k = 0%nat /\ st' = st /\
              url_Parse_error (url ++ "/metadata") <> None))).
  { destruct (postMetadata_trace _ _ _ _ _ _ Hfail) as [Hw Hs].
    split; [rewrite Hw; apply (accepted_log _ _ _ _ _ Hacc) |].
    destruct (url_Parse_error (url ++ "/metadata")) as [e0 |] eqn:Hurl.
    - right.
      rewrite (postMetadata_refused_url _ _ _ _ _ Hurl) in Hfail.
      injection Hfail as _ <-.
      destruct k as [|k].
      + simpl in Hacc. subst st_k. repeat split. discriminate.
      + exfalso. unfold sequence in Hacc. simpl firstn in Hacc.
        destruct Hacc as (st1 & H1 & _).
        rewrite (postMetadata_refused_url _ _ _ _ _ Hurl) in H1. discriminate.
    - left. rewrite (Hs eq_refl), (accepted_calls _ _ _ Hurl _ _ Hacc).
      unfold callsOf. rewrite (firstn_snoc _ _ _ Hop), map_app, <- app_assoc.
      reflexivity. }
  destruct Hshape as [Hw Hs].
  split; [exact Hw |].
  exists k, op, st_k, e. repeat split; assumption.
Qed.

Lemma returned_error_shape_witness :
  let script := [ok200; ok200; reply 400 "{'code':'permission-denied'}"] in
  exists k op st_k e,
    (k < 4)%nat /\
    nth_error sequence k = Some op /\
    @postMetadata (scripted script) exampleURL exampleSecret op st_k
    = (Return (Some e), after _ 3 (callsOf exampleURL exampleSecret 3) []) /\
    fmt.Errorf_w "problem creaiing object relationship for buckets"
                 (statusError 400 (q "{'code':'permission-denied'}"))
    = fmt.Errorf_w (nth k contexts "") e.
Proof.
  intros script.
  destruct (@returned_error_shape (scripted script) exampleURL exampleSecret
              (start _) (after _ 3 (callsOf exampleURL exampleSecret 3) [])
              (fmt.Errorf_w "problem creaiing object relationship for buckets"
                 (statusError 400 (q "{'code':'permission-denied'}"))))
    as (_ & k & op & st_k & e & Hk & Hop & _ & Hfail & He & _).
  - vm_compute. reflexivity.
  - exists k, op, st_k, e. repeat split; assumption.
Defined.

(** X4.  The log changes only in a run that returns nil, and then by
    exactly one warning, the one about the users relationship: a run that
    returns an error or panics leaves the log as it was. *)
Theorem warning_only_with_success {R : Runtime} (url secret : string)
        (st : State R) :
  warnings (snd (ApplyHasuraMetadata url secret st)) = warnings st \/
  (fst (ApplyHasuraMetadata url secret st) = Return None /\
   exists e, warnings (snd (ApplyHasuraMetadata url secret st))
             = (warnings st ++ [usersWarning e])%list).
Proof.
  destruct (url_Parse_error (url ++ "/metadata")) as [e |] eqn:Hurl.
  - left. now rewrite (run_refused url secret st e Hurl).
  - destruct (run_shape url secret st Hurl) as (n & _ & _ & Hr).
    destruct (fst (ApplyHasuraMetadata url secret st)) as [[e' |] | msg].
    + left. tauto.
    + destruct Hr as [_ [Hw | Hw]]; [left | right]; auto.
    + left. exact Hr.
Qed.

(** X5.  When [url/metadata] does not parse, [ApplyHasuraMetadata] makes
    no call and logs nothing: it returns the error of [url.Parse] wrapped
    twice, as a problem creating the request and as a problem with the
    buckets table. *)
Theorem refused_url_ends_run {R : Runtime} (url secret : string)
        (st : State R) (e : error) :
  url_Parse_error (url ++ "/metadata") = Some e ->
  exists e',
    ApplyHasuraMetadata url secret st = (Return (Some e'), st)
    /\ error_Error e'
       = "problem adding metadata for the buckets table: "
         ++ "problem creating request: " ++ error_Error e
    /\ (exists e1, Unwrap e' = Some e1 /\ Unwrap e1 = Some e).
Proof.
  intros Hurl. eexists. split; [apply run_refused; exact Hurl |].
  split; [reflexivity |]. eexists. split; reflexivity.
Qed.

Lemma refused_url_ends_run_witness :
  let url := String (n2b 127) "http://graphql-engine:8080/v1" in
  exists e',
    @ApplyHasuraMetadata (scripted [ok200]) url exampleSecret (start _)
    = (Return (Some e'), start _).
Proof.
  intros url.
  destruct (@refused_url_ends_run (scripted [ok200]) url exampleSecret (start _)
              (errorString "net/url: invalid control character in URL"))
    as (e' & Hrun & _).
  - reflexivity.
  - exists e'. exact Hrun.
Defined.

(* ================================================================= *)
(** * Errors and panics of a submission *)

Lemma checkResponse_error (resp : http.Response) (e : error) :
  checkResponse resp = Return (Some e) ->
  http.StatusCode resp <> 200%Z /\
  e = statusError (http.StatusCode resp) (http.ResponseBody resp).
Proof.
  unfold checkResponse. change http.StatusOK with 200%Z.
  destruct (Z.eqb_spec (http.StatusCode resp) 200) as [E | E]; simpl;
    [discriminate |].
  destruct (json_Unmarshal (http.ResponseBody resp) None) as [[r |] [e0 |]];
    simpl; try (intros [= <-]; auto); try discriminate.
  destruct (_ || _)%bool; [discriminate | intros [= <-]; auto].
Qed.

Lemma checkResponse_panic (resp : http.Response) (msg : string) :
  checkResponse resp = Panic msg ->
  msg = nilDereference /\
  http.StatusCode resp <> 200%Z /\
  json_Unmarshal (http.ResponseBody resp) None = (None, None).
Proof.
  unfold checkResponse. change http.StatusOK with 200%Z.
  destruct (Z.eqb_spec (http.StatusCode resp) 200) as [E | E]; simpl;
    [discriminate |].
  destruct (json_Unmarshal (http.ResponseBody resp) None) as [[r |] [e0 |]];
    simpl; try discriminate.
  - destruct (_ || _)%bool; discriminate.
  - intros [= <-]. auto.
Qed.

(** X6.  The errors of [postMetadata] are of three kinds and no other:
    the error of [url.Parse], wrapped as a problem creating the request,
    with the state untouched; the error of [client.Do], wrapped as a
    problem executing the request; or, for a response with a status other
    than 200, the status error made of that status and the body as
    received.  Serializing the operation never fails. *)
Theorem postMetadata_error_kinds {R : Runtime} (baseURL secret : string)
        (data : Operation) (st st' : State R) (e : error) :
  postMetadata baseURL secret data st = (Return (Some e), st') ->
  (exists e0, url_Parse_error (baseURL ++ "/metadata") = Some e0
              /\ e = fmt.Errorf_w "problem creating request" e0
              /\ st' = st)
  \/ (exists e0,
         client_Do tenSecondClient (requestFor baseURL secret data) (remote st)
         = (inr e0, remote st')
         /\ e = fmt.Errorf_w "problem executing request" e0)
  \/ (exists resp,
         client_Do tenSecondClient (requestFor baseURL secret data) (remote st)
         = (inl resp, remote st')
         /\ http.StatusCode resp <> 200%Z
         /\ e = statusError (http.StatusCode resp) (http.ResponseBody resp)).
Proof.
  rewrite postMetadata_unfold.
  destruct (url_Parse_error (baseURL ++ "/metadata")) as [e0 |].
  - intros [= <- <-]. left. now exists e0.
  - simpl fst. simpl snd.
    destruct (client_Do _ _ (remote st)) as [[resp | e0] remote'].
    + intros [= Hc <-]. right. right. exists resp.
      destruct (checkResponse_error _ _ Hc). auto.
    + intros [= <- <-]. right. left. now exists e0.
Qed.

Lemma postMetadata_error_kinds_witness :
  let body := q "{'path':'$.args','error':'no such table','code':'not-exists'}" in
  exists resp,
    @client_Do (scripted [reply 400 "{'path':'$.args','error':'no such table','code':'not-exists'}"])
               tenSecondClient
               (requestFor exampleURL exampleSecret (OpTrackTable filesTable)) 0%nat
    = (inl resp, 1%nat)
    /\ statusError 400 body
       = statusError (http.StatusCode resp) (http.ResponseBody resp).
Proof.
  intros body.
  destruct (@postMetadata_error_kinds
              (scripted [reply 400 "{'path':'$.args','error':'no such table','code':'not-exists'}"])
              exampleURL exampleSecret (OpTrackTable filesTable) (start _)
              (after _ 1 (callsOf exampleURL exampleSecret 0
                          ++ [(tenSecondClient,
                               requestFor exampleURL exampleSecret
                                          (OpTrackTable filesTable))]) [])
              (statusError 400 body))
    as [(e0 & Hurl & _) | [(e0 & Hdo & _) | (resp & Hdo & _ & He)]].
  - vm_compute. reflexivity.
  - discriminate Hurl.
  - discriminate Hdo.
  - exists resp. split; assumption.
Defined.

(** X7.  A panic of a submission is not tolerated, whichever operation
    it strikes: when the operations before the [k]-th were accepted and
    the [k]-th call panics, [ApplyHasuraMetadata] panics with it, in the
    state of the panic.  That holds for the users relationship as well:
    the warning covers its errors, not its panics. *)
Theorem panic_propagates {R : Runtime} (url secret : string) (k : nat)
        (op : Operation) (st st_k st' : State R) (msg : string) :
  nth_error sequence k = Some op ->
  accepted url secret (firstn k sequence) st st_k ->
  postMetadata url secret op st_k = (Panic msg, st') ->
  ApplyHasuraMetadata url secret st = (Panic msg, st').
Proof.
  intros Hop Hacc Hpanic.
  destruct k as [|[|[|[|[|k]]]]];
    simpl in Hop; try (destruct k; discriminate);
    injection Hop as <-;
    unfold sequence in Hacc; simpl firstn in Hacc;
    open_accepted; run_calls; reflexivity.
Qed.

Lemma panic_propagates_witness :
  let script := [ok200; ok200; ok200; ok200; reply 500 " null "] in
  @ApplyHasuraMetadata (scripted script) exampleURL exampleSecret (start _)
  = (Panic nilDereference, after _ 5 (callsOf exampleURL exampleSecret 5) []).
Proof.
  intros script.
  apply (@panic_propagates (scripted script) exampleURL exampleSecret 4
           (OpCreateObjectRelationship objRelationshipUser)
           (start _) (after _ 4 (callsOf exampleURL exampleSecret 4) [])).
  - reflexivity.
  - exists (after _ 1 (callsOf exampleURL exampleSecret 1) []).
    split; [vm_compute; reflexivity |].
    exists (after _ 2 (callsOf exampleURL exampleSecret 2) []).
    split; [vm_compute; reflexivity |].
    exists (after _ 3 (callsOf exampleURL exampleSecret 3) []).
    split; [vm_compute; reflexivity |].
    exists (after _ 4 (callsOf exampleURL exampleSecret 4) []).
    split; [vm_compute; reflexivity |].
    reflexivity.
  - vm_compute. reflexivity.
Defined.

Section Panics.

Context {R : Runtime}.
Variables url secret : string.

Lemma postMetadata_panic (data : Operation) (st st' : State R) (msg : string) :
  postMetadata url secret data st = (Panic msg, st') ->
  msg = nilDereference /\
  exists resp,
    client_Do tenSecondClient (requestFor url secret data) (remote st)
    = (inl resp, remote st')
    /\ http.StatusCode resp <> 200%Z
    /\ json_Unmarshal (http.ResponseBody resp) None = (None, None).
Proof.
  rewrite postMetadata_unfold.
  destruct (url_Parse_error (url ++ "/metadata")) as [e0 |]; [discriminate |].
  simpl fst. simpl snd.
  destruct (client_Do _ _ (remote st)) as [[resp | e0] remote'];
    [| discriminate].
  intros [= Hc <-].
  destruct (checkResponse_panic _ _ Hc) as (-> & Hs & Hu).
  split; [reflexivity |]. now exists resp.
Qed.

End Panics.

(** Where a panic comes from: one of the five operations, submitted
    after the ones before it were accepted, whose call of [postMetadata]
    panicked. *)
Lemma run_panic_origin {R : Runtime} (url secret : string)
      (st st' : State R) (msg : string) :
  ApplyHasuraMetadata url secret st = (Panic msg, st') ->
  exists k op st_k,
    nth_error sequence k = Some op
    /\ accepted url secret (firstn k sequence) st st_k
    /\ postMetadata url secret op st_k = (Panic msg, st').
Proof.
  unfold ApplyHasuraMetadata, bind.
  destruct (postMetadata url secret (OpTrackTable bucketsTable) st)
    as [[[e |] | m] st1] eqn:H1; [discriminate | |].
  2: { intros [= <- <-]. exists 0%nat, (OpTrackTable bucketsTable), st.
       repeat split; assumption. }
  destruct (postMetadata url secret (OpTrackTable filesTable) st1)
    as [[[e |] | m] st2] eqn:H2; [discriminate | |].
  2: { intros [= <- <-]. exists 1%nat, (OpTrackTable filesTable), st1.
       split; [reflexivity |]. split; [close_accepted | assumption]. }
  destruct (postMetadata url secret
              (OpCreateObjectRelationship objRelationshipBuckets) st2)
    as [[[e |] | m] st3] eqn:H3; [discriminate | |].
  2: { intros [= <- <-].
       exists 2%nat, (OpCreateObjectRelationship objRelationshipBuckets), st2.
       split; [reflexivity |]. split; [close_accepted | assumption]. }
  destruct (postMetadata url secret (OpCreateArrayRelationship arrRelationship) st3)
    as [[[e |] | m] st4] eqn:H4; [discriminate | |].
  2: { intros [= <- <-].
       exists 3%nat, (OpCreateArrayRelationship arrRelationship), st3.
       split; [reflexivity |]. split; [close_accepted | assumption]. }
  destruct (postMetadata url secret
              (OpCreateObjectRelationship objRelationshipUser) st4)
    as [[[e |] | m] st5] eqn:H5; [discriminate | discriminate |].
  intros [= <- <-].
  exists 4%nat, (OpCreateObjectRelationship objRelationshipUser), st4.
  split; [reflexivity |]. split; [close_accepted | assumption].
Qed.

(** X8.  The nil dereference is the only panic of [ApplyHasuraMetadata],
    and it has one cause, in the run itself: for one operation of the
    sequence, reached after the operations before it were accepted, the
    call to [client.Do] made from the state then reached was answered
    with a status other than 200 and a body that [json.Unmarshal]
    decodes, without error, to a nil pointer; that call is the last of
    the trace and the run ends in the state it left. *)
Theorem panic_origin {R : Runtime} (url secret : string) (st : State R)
        (msg : string) :
  fst (ApplyHasuraMetadata url secret st) = Panic msg ->
  msg = nilDereference /\
  exists k op st_k resp,
    nth_error sequence k = Some op
    /\ In op sequence
    /\ accepted url secret (firstn k sequence) st st_k
    /\ postMetadata url secret op st_k
       = (Panic msg, snd (ApplyHasuraMetadata url secret st))
    /\ client_Do tenSecondClient (requestFor url secret op) (remote st_k)
       = (inl resp, remote (snd (ApplyHasuraMetadata url secret st)))
    /\ sent (snd (ApplyHasuraMetadata url secret st))
       = (sent st_k ++ [(tenSecondClient, requestFor url secret op)])%list
    /\ http.StatusCode resp <> 200%Z
    /\ json_Unmarshal (http.ResponseBody resp) None = (None, None).
Proof.
  destruct (ApplyHasuraMetadata url secret st) as [r st'] eqn:Hrun.
  cbn [fst snd]. intros ->.
  destruct (run_panic_origin url secret st st' msg Hrun)
    as (k & op & st_k & Hop & Hacc & Hpanic).
  destruct (postMetadata_panic _ _ _ _ _ _ Hpanic) as (-> & resp & Hdo & Hs & Hu).
  split; [reflexivity |].
  exists k, op, st_k, resp.
  split; [exact Hop |]. split; [eapply nth_error_In; exact Hop |].
  split; [exact Hacc |]. split; [exact Hpanic |]. split; [exact Hdo |].
  split; [| split; assumption].
  destruct (postMetadata_trace _ _ _ _ _ _ Hpanic) as [_ Hsent].
  apply Hsent.
  destruct (url_Parse_error (url ++ "/metadata")) as [e0 |] eqn:Hurl;
    [| reflexivity].
  rewrite (postMetadata_refused_url _ _ _ _ _ Hurl) in Hpanic. discriminate.
Qed.

Lemma panic_origin_witness :
  let script := [ok200; reply 404 "null"] in
  exists k op st_k resp,
    nth_error sequence k = Some op
    /\ accepted (R := scripted script) exampleURL exampleSecret
                (firstn k sequence) (start _) st_k
    /\ @client_Do (scripted script) tenSecondClient
                  (requestFor exampleURL exampleSecret op) (remote st_k)
       = (inl resp, 2%nat)
    /\ http.StatusCode resp <> 200%Z
    /\ json_Unmarshal (http.ResponseBody resp) None = (None, None).
Proof.
  intros script.
  destruct (@panic_origin (scripted script) exampleURL exampleSecret (start _)
                          nilDereference)
    as (_ & k & op & st_k & resp & Hop & _ & Hacc & _ & Hdo & _ & Hs & Hu).
  - vm_compute. reflexivity.
  - exists k, op, st_k, resp. repeat split; assumption.
Defined.

(* ================================================================= *)
(** * Error bodies: from the encoder through the decoder *)

Section Strings.

(** The encoder on an ASCII byte. *)
Lemma appendStringBody_cons (c : byte) (t : string) :
  N.ltb (b2n c) 128 = true ->
  json.appendStringBody 0 true (String c t)
  = written c ++ json.appendStringBody 0 true t.
Proof.
  intros H. unfold written. simpl. rewrite H.
  destruct (json.htmlSafeSet c); reflexivity.
Qed.

(** Each of the three readers passes over what the encoder wrote for an
    ASCII byte: the scanner stays inside the string, the tokenizer takes
    the bytes into the literal, and unquoting gives the byte back. *)
Lemma scan_written (c : byte) (e : bool) (stk : list json.parseState)
      (rest : string) :
  N.ltb (b2n c) 128 = true ->
  json.scanAll (json.mkScanner json.stateInString e stk false) (written c ++ rest)
  = json.scanAll (json.mkScanner json.stateInString e stk false) rest.
Proof.
  destruct c as [[] [] [] [] [] [] [] []]; intros H;
    try discriminate H; reflexivity.
Qed.

Lemma tokens_written (c : byte) (acc rest : string) :
  N.ltb (b2n c) 128 = true ->
  json.tokens (json.InStr acc false) (written c ++ rest)
  = json.tokens (json.InStr (json.revAppend (written c) acc) false) rest.
Proof.
  destruct c as [[] [] [] [] [] [] [] []]; intros H;
    try discriminate H; reflexivity.
Qed.

Lemma unquote_written (c : byte) (rest : string) :
  N.ltb (b2n c) 128 = true ->
  json.unquote 0 (written c ++ rest) = String c (json.unquote 0 rest).
Proof.
  destruct c as [[] [] [] [] [] [] [] []]; intros H;
    try discriminate H; reflexivity.
Qed.

Lemma revAppend_revAppend (raw acc s : string) :
  json.revAppend (json.revAppend raw acc) s = json.revAppend acc (raw ++ s).
Proof.
  revert acc. induction raw as [|c t IH]; intros acc; simpl; [reflexivity |].
  now rewrite IH.
Qed.

Lemma scan_string (p : string) (e : bool) (stk : list json.parseState)
      (rest : string) :
  isASCII p = true ->
  json.scanAll (json.mkScanner json.stateInString e stk false)
               (json.appendStringBody 0 true p ++ rest)
  = json.scanAll (json.mkScanner json.stateInString e stk false) rest.
Proof.
  induction p as [|c t IH]; [reflexivity |].
  simpl isASCII. intros H. apply andb_prop in H as [Hc Ht].
  rewrite (appendStringBody_cons c t Hc), append_assoc, (scan_written c _ _ _ Hc).
  now apply IH.
Qed.

Lemma tokens_string (p acc rest : string) :
  isASCII p = true ->
  json.tokens (json.InStr acc false)
              (json.appendStringBody 0 true p ++ String dquote rest)
  = json.TString (json.revAppend acc (json.appendStringBody 0 true p))
    :: json.tokens json.Outside rest.
Proof.
  revert acc. induction p as [|c t IH]; intros acc; [reflexivity |].
  simpl isASCII. intros H. apply andb_prop in H as [Hc Ht].
  rewrite (appendStringBody_cons c t Hc), append_assoc, (tokens_written c _ _ Hc).
  rewrite (IH _ Ht). now rewrite revAppend_revAppend.
Qed.

Lemma unquote_string (p : string) :
  isASCII p = true ->
  json.unquote 0 (json.appendStringBody 0 true p) = p.
Proof.
  induction p as [|c t IH]; [reflexivity |].
  simpl isASCII. intros H. apply andb_prop in H as [Hc Ht].
  rewrite (appendStringBody_cons c t Hc), (unquote_written c _ Hc).
  now rewrite (IH Ht).
Qed.

(** The error body laid out flat. *)
Lemma errorBody_flat (p e c : string) :
  errorBody {| Path := p; Error := e; Code := c |}
  = q "{'path':'" ++ json.appendStringBody 0 true p
    ++ q "','error':'" ++ json.appendStringBody 0 true e
    ++ q "','code':'" ++ json.appendStringBody 0 true c
    ++ q "'}".
Proof.
  unfold errorBody, json.object, json.appendString.
  cbn [map json.commaSep fst snd Path Error Code].
  rewrite !append_assoc. cbn [append q]. rewrite !append_assoc.
  reflexivity.
Qed.

Section ErrorBody.

Variables p e c : string.
Hypothesis Hp : isASCII p = true.
Hypothesis He : isASCII e = true.
Hypothesis Hc : isASCII c = true.

Let inString : json.scanner :=
  json.mkScanner json.stateInString false [json.parseObjectValue] false.

Lemma errorBody_valid :
  json.checkValid (errorBody {| Path := p; Error := e; Code := c |}) = true.
Proof.
  rewrite errorBody_flat. unfold json.checkValid.
  match goal with
  | |- json.eofOk (json.scanAll _ (_ ++ ?X)) = _ =>
    change (json.eofOk (json.scanAll inString X) = true)
  end.
  unfold inString. rewrite (scan_string p _ _ _ Hp).
  match goal with
  | |- json.eofOk (json.scanAll _ (_ ++ ?X)) = _ =>
    change (json.eofOk (json.scanAll inString X) = true)
  end.
  unfold inString. rewrite (scan_string e _ _ _ He).
  match goal with
  | |- json.eofOk (json.scanAll _ (_ ++ ?X)) = _ =>
    change (json.eofOk (json.scanAll inString X) = true)
  end.
  unfold inString. rewrite (scan_string c _ _ _ Hc).
  reflexivity.
Qed.

Lemma errorBody_tokens :
  json.tokens json.Outside (errorBody {| Path := p; Error := e; Code := c |})
  = [json.TBeginObject;
     json.TString "path"; json.TColon;
     json.TString (json.appendStringBody 0 true p); json.TComma;
     json.TString "error"; json.TColon;
     json.TString (json.appendStringBody 0 true e); json.TComma;
     json.TString "code"; json.TColon;
     json.TString (json.appendStringBody 0 true c);
     json.TEndObject].
Proof.
  rewrite errorBody_flat.
  match goal with
  | |- json.tokens _ (_ ++ ?B ++ _ ++ ?X) = _ =>
    change (json.TBeginObject :: json.TString "path" :: json.TColon
            :: json.tokens (json.InStr "" false)
                 (B ++ String dquote (q ",'error':'" ++ X)) = 
            [json.TBeginObject;
             json.TString "path"; json.TColon;
             json.TString (json.appendStringBody 0 true p); json.TComma;
             json.TString "error"; json.TColon;
             json.TString (json.appendStringBody 0 true e); json.TComma;
             json.TString "code"; json.TColon;
             json.TString (json.appendStringBody 0 true c);
             json.TEndObject])
  end.
  rewrite (tokens_string p _ _ Hp). do 4 f_equal.
  match goal with
  | |- json.tokens _ (_ ++ ?B ++ _ ++ ?X) = ?rhs =>
    change (json.TComma :: json.TString "error" :: json.TColon
            :: json.tokens (json.InStr "" false)
                 (B ++ String dquote (q ",'code':'" ++ X)) = rhs)
  end.
  rewrite (tokens_string e _ _ He). do 4 f_equal.
  match goal with
  | |- json.tokens _ (_ ++ ?B ++ ?X) = ?rhs =>
    change (json.TComma :: json.TString "code" :: json.TColon
            :: json.tokens (json.InStr "" false)
                 (B ++ String dquote "}") = rhs)
  end.
  rewrite (tokens_string c _ _ Hc). reflexivity.
Qed.

Lemma errorBody_decodes :
  json_Unmarshal (errorBody {| Path := p; Error := e; Code := c |}) None
  = (Some {| Path := p; Error := e; Code := c |}, None).
Proof.
  unfold json_Unmarshal, json.decodeTop.
  rewrite errorBody_valid, errorBody_tokens.
  cbn [negb json.members json.literalValue].
  rewrite !unquote_string by assumption.
  reflexivity.
Qed.

End ErrorBody.

End Strings.

(** X9.  Decoding undoes encoding on error bodies: for a
    [hasuraErrResponse] whose three fields are ASCII strings -- with any
    quotes, backslashes, control bytes and HTML characters among them --
    [json.Unmarshal] of what [json.Marshal] writes for it reports no
    error and gives the same three fields back. *)
Theorem error_body_round_trip (r : hasuraErrResponse) :
  isASCII (Path r) = true ->
  isASCII (Error r) = true ->
  isASCII (Code r) = true ->
  json_Unmarshal (errorBody r) None = (Some r, None).
Proof.
  destruct r as [p e c]. simpl. intros Hp He Hc.
  now apply errorBody_decodes.
Qed.

Lemma error_body_round_trip_witness :
  let r := {| Path := "$.args";
              Error := String dquote "view/table already tracked: <files> & \more"
                       ++ String newline (String dquote "");
              Code := "already-tracked" |} in
  json_Unmarshal (errorBody r) None = (Some r, None).
Proof.
  intros r. apply error_body_round_trip; reflexivity.
Defined.

(** X10.  On a well-formed error body the response check decides by the
    code alone: under any status other than 200, the body that carries
    the ASCII fields [path], [error] and [code] is accepted (nil) when
    the code is [already-tracked] or [already-exists], byte for byte, and
    otherwise yields the status error with that status and that body. *)
Theorem error_body_classified (status : Z) (r : hasuraErrResponse) :
  status <> 200%Z ->
  isASCII (Path r) = true ->
  isASCII (Error r) = true ->
  isASCII (Code r) = true ->
  checkResponse {| http.StatusCode := status; http.ResponseBody := errorBody r |}
  = if (String.eqb (Code r) "already-tracked"
        || String.eqb (Code r) "already-exists")%bool
    then Return None
    else Return (Some (statusError status (errorBody r))).
Proof.
  intros Hs Hp He Hc. destruct r as [p e c]. simpl in Hp, He, Hc.
  unfold checkResponse. cbn [http.StatusCode http.ResponseBody].
  destruct (Z.eqb_spec status http.StatusOK) as [E | _]; [contradiction |].
  cbn [negb]. rewrite (errorBody_decodes p e c Hp He Hc).
  reflexivity.
Qed.

Lemma error_body_classified_witness :
  checkResponse
    {| http.StatusCode := 400;
       http.ResponseBody :=
         errorBody {| Path := "$.args"; Error := "already exists";
                      Code := "Already-Exists" |} |}
  = Return (Some (statusError 400
       (q "{'path':'$.args','error':'already exists','code':'Already-Exists'}"))).
Proof.
  apply (error_body_classified 400
           {| Path := "$.args"; Error := "already exists";
              Code := "Already-Exists" |});
    [discriminate | reflexivity | reflexivity | reflexivity].
Defined.

(* ================================================================= *)
(** * The body [null], with white space around it *)

Section NullBody.

Let afterNull : json.scanner := json.mkScanner json.stateEndValue false [] false.
Let atEnd : json.scanner := json.mkScanner json.stateEndTop true [] false.

Lemma scan_leading_spaces (ws rest : string) :
  isSpaces ws = true ->
  json.scanAll json.reset (ws ++ rest) = json.scanAll json.reset rest.
Proof.
  induction ws as [|c t IH]; [reflexivity |].
  simpl isSpaces. intros H. apply andb_prop in H as [Hc Ht].
  simpl. unfold json.scanStep, json.doBeginValue. simpl json.step.
  rewrite Hc. simpl. now apply IH.
Qed.

Lemma scan_trailing_spaces (ws : string) :
  isSpaces ws = true -> json.scanAll atEnd ws = atEnd.
Proof.
  induction ws as [|c t IH]; [reflexivity |].
  simpl isSpaces. intros H. apply andb_prop in H as [Hc Ht].
  simpl. unfold json.scanStep, json.doEndTop. simpl json.step.
  rewrite Hc. simpl. now apply IH.
Qed.

Lemma null_valid (ws1 ws2 : string) :
  isSpaces ws1 = true -> isSpaces ws2 = true ->
  json.checkValid (ws1 ++ "null" ++ ws2) = true.
Proof.
  intros H1 H2. unfold json.checkValid.
  rewrite (scan_leading_spaces _ _ H1).
  change (json.eofOk (json.scanAll afterNull ws2) = true).
  destruct ws2 as [|c t]; [reflexivity |].
  simpl isSpaces in H2. apply andb_prop in H2 as [Hc Ht].
  simpl. unfold json.scanStep, json.doEndValue, json.doEndTop.
  simpl json.step. simpl json.parseStack. rewrite Hc.
  change (json.eofOk (json.scanAll atEnd t) = true).
  now rewrite (scan_trailing_spaces t Ht).
Qed.

Lemma tokens_leading_spaces (ws rest : string) :
  isSpaces ws = true ->
  json.tokens json.Outside (ws ++ rest) = json.tokens json.Outside rest.
Proof.
  induction ws as [|c t IH]; [reflexivity |].
  simpl isSpaces. intros H. apply andb_prop in H as [Hc Ht].
  simpl. rewrite Hc. now apply IH.
Qed.

Lemma null_decodes (ws1 ws2 : string) :
  isSpaces ws1 = true -> isSpaces ws2 = true ->
  json.decodeTop (ws1 ++ "null" ++ ws2) = json.TopNull.
Proof.
  intros H1 H2. unfold json.decodeTop.
  rewrite (tokens_leading_spaces _ _ H1).
  change (json.tokens json.Outside ("null" ++ ws2))
    with (json.tokens (json.InLit "llun") ws2).
  destruct ws2 as [|c t]; [reflexivity |].
  simpl isSpaces in H2. apply andb_prop in H2 as [Hc Ht].
  simpl. rewrite Hc. reflexivity.
Qed.

End NullBody.

(** X11.  The panic of the response check is not confined to the four
    bytes [null]: under every status other than 200, every body made of
    the literal [null] with any JSON white space before and after it
    makes the check panic with a nil dereference. *)
Theorem null_in_spaces_panics (status : Z) (ws1 ws2 : string) :
  status <> 200%Z ->
  isSpaces ws1 = true ->
  isSpaces ws2 = true ->
  checkResponse {| http.StatusCode := status;
                   http.ResponseBody := ws1 ++ "null" ++ ws2 |}
  = Panic nilDereference.
Proof.
  intros Hs H1 H2.
  unfold checkResponse. cbn [http.StatusCode http.ResponseBody].
  destruct (Z.eqb_spec status http.StatusOK) as [E | _]; [contradiction |].
  cbn [negb]. unfold json_Unmarshal.
  rewrite (null_valid _ _ H1 H2), (null_decodes _ _ H1 H2).
  reflexivity.
Qed.

Lemma null_in_spaces_panics_witness :
  checkResponse {| http.StatusCode := 503;
                   http.ResponseBody := String newline "  " ++ "null"
                                        ++ String newline "" |}
  = Panic nilDereference.
Proof.
  apply (null_in_spaces_panics 503 (String newline "  ") (String newline ""));
    [discriminate | reflexivity | reflexivity].
Defined.

(* ================================================================= *)
(** * The scanner on what the encoder writes *)

Section Scanning.

Lemma scanAll_step (sc sc' : json.scanner) (c : byte) (rest : string) :
  json.scanStep sc c = sc' -> json.err sc' = false ->
  json.scanAll sc (String c rest) = json.scanAll sc' rest.
Proof. intros <- H. simpl. now rewrite H. Qed.

Lemma scan_safe_byte (c : byte) (e : bool) (stk : list json.parseState) :
  stringSafe c = true -> json.scanStep (inStr e stk) c = inStr e stk.
Proof.
  unfold stringSafe. intros H.
  apply andb_prop in H as [H H32]. apply andb_prop in H as [Hq Hb].
  apply negb_true_iff in Hq, Hb, H32.
  unfold json.scanStep, inStr, json.doInString. simpl json.step.
  now rewrite Hq, Hb, H32.
Qed.

Lemma high_byte_safe (c : byte) :
  N.ltb (b2n c) 128 = false -> stringSafe c = true.
Proof.
  destruct c as [[] [] [] [] [] [] [] []]; intros H;
    try discriminate H; reflexivity.
Qed.

Lemma continuation_high (c : byte) :
  between 128 191 c = true -> N.ltb (b2n c) 128 = false.
Proof.
  unfold between. intros H. apply andb_prop in H as [H _].
  apply N.leb_le in H. apply N.ltb_ge. exact H.
Qed.

Lemma between_weaken (lo hi : N) (c : byte) :
  N.leb 128 lo = true -> N.leb hi 191 = true ->
  between lo hi c = true -> between 128 191 c = true.
Proof.
  unfold between. intros Hlo Hhi H.
  apply andb_prop in H as [H1 H2].
  apply N.leb_le in Hlo, Hhi, H1, H2.
  apply andb_true_intro. split; apply N.leb_le; lia.
Qed.

(** After the first byte of a rune that [DecodeRuneInString] decoded come
    its continuation bytes. *)
Lemma decode_continuation (c : byte) (t : string) :
  contPrefix (snd (utf8.DecodeRuneInString (String c t)) - 1) t = true.
Proof.
  unfold utf8.DecodeRuneInString.
  destruct (N.ltb (b2n c) 128); [reflexivity |].
  repeat match goal with
         | |- context [if ?b then Some _ else _] => destruct b
         end;
    try reflexivity;
    (destruct t as [|s1 t1]; [reflexivity |]);
    match goal with
    | |- context [between ?lo ?hi s1] =>
      destruct (between lo hi s1) eqn:H1; [| reflexivity];
      apply (between_weaken lo hi s1 eq_refl eq_refl) in H1
    end;
    cbn [negb Nat.leb];
    try (cbn [snd Nat.sub contPrefix]; now rewrite H1);
    (destruct t1 as [|s2 t2]; [reflexivity |]);
    (destruct (between 128 191 s2) eqn:H2; [| reflexivity]);
    cbn [negb];
    try (cbn [snd Nat.sub contPrefix]; now rewrite H1, H2);
    (destruct t2 as [|s3 t3]; [reflexivity |]);
    (destruct (between 128 191 s3) eqn:H3; [| reflexivity]);
    cbn [negb snd Nat.sub contPrefix]; now rewrite H1, H2, H3.
Qed.

(** The scanner passes over the inside of every string literal the
    encoder writes. *)
Lemma scan_body (s : string) :
  forall (skip : nat) (copy : bool) (e : bool) (stk : list json.parseState)
         (rest : string),
    (copy = true -> contPrefix skip s = true) ->
    json.scanAll (inStr e stk) (json.appendStringBody skip copy s ++ rest)
    = json.scanAll (inStr e stk) rest.
Proof.
  induction s as [|c t IH]; intros skip copy e stk rest Hcont.
  - destruct skip; reflexivity.
  - destruct skip as [|k].
    + cbn [json.appendStringBody].
      destruct (N.ltb (b2n c) 128) eqn:Hc.
      * change (if json.htmlSafeSet c
                then String c (json.appendStringBody 0 true t)
                else (json.escapeByte c ++ json.appendStringBody 0 true t)%string)
          with (if json.htmlSafeSet c
                then String c "" ++ json.appendStringBody 0 true t
                else json.escapeByte c ++ json.appendStringBody 0 true t).
        replace (if json.htmlSafeSet c
                 then String c "" ++ json.appendStringBody 0 true t
                 else json.escapeByte c ++ json.appendStringBody 0 true t)
          with (written c ++ json.appendStringBody 0 true t)
          by (unfold written; destruct (json.htmlSafeSet c); reflexivity).
        rewrite append_assoc.
        unfold inStr. rewrite (scan_written c e stk _ Hc).
        apply (IH 0%nat true). reflexivity.
      * pose proof (decode_continuation c t) as Hd.
        destruct (utf8.DecodeRuneInString (String c t)) as [r size].
        cbn [snd] in Hd.
        destruct (N.eqb r utf8.RuneError && Nat.eqb size 1)%bool.
        { rewrite append_assoc.
          apply (IH 0%nat true). reflexivity. }
        destruct (N.eqb_spec r 8232) as [-> | _].
        { cbn [orb]. rewrite append_assoc.
          change (json.scanAll (inStr e stk)
                    (json.appendStringBody (size - 1) false t ++ rest)
                  = json.scanAll (inStr e stk) rest).
          apply IH. discriminate. }
        destruct (N.eqb_spec r 8233) as [-> | _].
        { cbn [orb]. rewrite append_assoc.
          change (json.scanAll (inStr e stk)
                    (json.appendStringBody (size - 1) false t ++ rest)
                  = json.scanAll (inStr e stk) rest).
          apply IH. discriminate. }
        cbn [orb].
        change (String c (json.appendStringBody (size - 1) true t) ++ rest)
          with (String c (json.appendStringBody (size - 1) true t ++ rest)).
        rewrite (scanAll_step (inStr e stk) (inStr e stk) c);
          [| apply scan_safe_byte, high_byte_safe, Hc | reflexivity].
        apply IH. intros _. exact Hd.
    + cbn [json.appendStringBody].
      destruct copy.
      * specialize (Hcont eq_refl). cbn [contPrefix] in Hcont.
        apply andb_prop in Hcont as [Hc Hk].
        change (String c (json.appendStringBody k true t) ++ rest)
          with (String c (json.appendStringBody k true t ++ rest)).
        rewrite (scanAll_step (inStr e stk) (inStr e stk) c);
          [| apply scan_safe_byte, high_byte_safe, continuation_high, Hc
           | reflexivity].
        apply IH. intros _. exact Hk.
      * apply IH. discriminate.
Qed.

Lemma scan_safe_string (s : string) (e : bool) (stk : list json.parseState)
      (rest : string) :
  allSafe s = true ->
  json.scanAll (inStr e stk) (s ++ rest) = json.scanAll (inStr e stk) rest.
Proof.
  induction s as [|c t IH]; [reflexivity |].
  cbn [allSafe]. intros H. apply andb_prop in H as [Hc Ht].
  change (String c t ++ rest) with (String c (t ++ rest)).
  rewrite (scanAll_step (inStr e stk) (inStr e stk) c);
    [| apply scan_safe_byte, Hc | reflexivity].
  now apply IH.
Qed.

(** A quote opens a string wherever a value or a key may begin, and
    closes it. *)
Lemma scan_open_value (st : json.stepState) (e : bool)
      (stk : list json.parseState) (rest : string) :
  beginsValue st ->
  json.scanAll (json.mkScanner st e stk false) (String dquote rest)
  = json.scanAll (inStr e stk) rest.
Proof. intros [-> | ->]; reflexivity. Qed.

Lemma scan_open_key (st : json.stepState) (e : bool)
      (stk : list json.parseState) (rest : string) :
  beginsKey st ->
  json.scanAll (json.mkScanner st e stk false) (String dquote rest)
  = json.scanAll (inStr e stk) rest.
Proof. intros [-> | ->]; reflexivity. Qed.

Lemma scan_close_string (e : bool) (stk : list json.parseState) (rest : string) :
  json.scanAll (inStr e stk) (String dquote rest)
  = json.scanAll (endValue e stk) rest.
Proof. reflexivity. Qed.

(** A string literal of the encoder, read from its opening quote. *)
Lemma scan_literal (s : string) (e : bool) (stk : list json.parseState)
      (rest : string) :
  json.scanAll (inStr e stk)
               ((json.appendStringBody 0 true s ++ String dquote "") ++ rest)
  = json.scanAll (endValue e stk) rest.
Proof.
  rewrite append_assoc, scan_body by reflexivity. apply scan_close_string.
Qed.

Lemma scan_literal_value (st : json.stepState) (s : string) (e : bool)
      (stk : list json.parseState) (rest : string) :
  beginsValue st ->
  json.scanAll (json.mkScanner st e stk false) (json.appendString s ++ rest)
  = json.scanAll (endValue e stk) rest.
Proof.
  intros Hst. unfold json.appendString.
  change (String dquote (json.appendStringBody 0 true s ++ String dquote "") ++ rest)
    with (String dquote ((json.appendStringBody 0 true s ++ String dquote "") ++ rest)).
  rewrite (scan_open_value st e stk _ Hst). apply scan_literal.
Qed.

Lemma scan_literal_key (st : json.stepState) (s : string) (e : bool)
      (stk : list json.parseState) (rest : string) :
  beginsKey st ->
  json.scanAll (json.mkScanner st e stk false) (json.appendString s ++ rest)
  = json.scanAll (endValue e stk) rest.
Proof.
  intros Hst. unfold json.appendString.
  change (String dquote (json.appendStringBody 0 true s ++ String dquote "") ++ rest)
    with (String dquote ((json.appendStringBody 0 true s ++ String dquote "") ++ rest)).
  rewrite (scan_open_key st e stk _ Hst). apply scan_literal.
Qed.

(** Brackets, commas and colons. *)
Lemma push_fits (p : json.parseState) (stk : list json.parseState) (d : nat) :
  (List.length stk + S d <= 100)%nat ->
  N.leb (N.of_nat (List.length (p :: stk))) json.maxNestingDepth = true.
Proof.
  intros H. apply N.leb_le. unfold json.maxNestingDepth. simpl List.length. lia.
Qed.

Lemma scan_push (st next : json.stepState) (p : json.parseState) (c : byte)
      (e : bool) (stk : list json.parseState) (d : nat) (rest : string) :
  json.scanStep (json.mkScanner st e stk false) c
  = json.pushParseState (json.mkScanner st e stk false) p next ->
  (List.length stk + S d <= 100)%nat ->
  json.scanAll (json.mkScanner st e stk false) (String c rest)
  = json.scanAll (json.mkScanner next e (p :: stk) false) rest.
Proof.
  intros Hstep Hfit. apply scanAll_step; [| reflexivity].
  rewrite Hstep. unfold json.pushParseState.
  cbv zeta. cbn [json.parseStack json.endTop json.err].
  now rewrite (push_fits p stk d Hfit).
Qed.

Lemma scan_begin_object (st : json.stepState) (e : bool)
      (stk : list json.parseState) (d : nat) (rest : string) :
  beginsValue st ->
  (List.length stk + S d <= 100)%nat ->
  json.scanAll (json.mkScanner st e stk false) (String "{" rest)
  = json.scanAll (json.mkScanner json.stateBeginStringOrEmpty e
                                 (json.parseObjectKey :: stk) false) rest.
Proof.
  intros Hst Hfit. apply (scan_push _ _ _ _ _ _ d); [| exact Hfit].
  destruct Hst as [-> | ->]; reflexivity.
Qed.

Lemma scan_begin_array (st : json.stepState) (e : bool)
      (stk : list json.parseState) (d : nat) (rest : string) :
  beginsValue st ->
  (List.length stk + S d <= 100)%nat ->
  json.scanAll (json.mkScanner st e stk false) (String "[" rest)
  = json.scanAll (json.mkScanner json.stateBeginValueOrEmpty e
                                 (json.parseArrayValue :: stk) false) rest.
Proof.
  intros Hst Hfit. apply (scan_push _ _ _ _ _ _ d); [| exact Hfit].
  destruct Hst as [-> | ->]; reflexivity.
Qed.

Lemma scan_end_object (e : bool) (stk : list json.parseState) (rest : string) :
  json.scanAll (endValue e (json.parseObjectValue :: stk)) (String "}" rest)
  = json.scanAll (closed e stk) rest.
Proof. destruct stk; reflexivity. Qed.

Lemma scan_empty_object (e : bool) (stk : list json.parseState) (rest : string) :
  json.scanAll (json.mkScanner json.stateBeginStringOrEmpty e
                               (json.parseObjectKey :: stk) false) (String "}" rest)
  = json.scanAll (closed e stk) rest.
Proof. destruct stk; reflexivity. Qed.

Lemma scan_end_array (e : bool) (stk : list json.parseState) (rest : string) :
  json.scanAll (endValue e (json.parseArrayValue :: stk)) (String "]" rest)
  = json.scanAll (closed e stk) rest.
Proof. destruct stk; reflexivity. Qed.

Lemma scan_empty_array (e : bool) (stk : list json.parseState) (rest : string) :
  json.scanAll (json.mkScanner json.stateBeginValueOrEmpty e
                               (json.parseArrayValue :: stk) false) (String "]" rest)
  = json.scanAll (closed e stk) rest.
Proof. destruct stk; reflexivity. Qed.

(** The members of an object, up to the closing brace. *)
Lemma scan_members (d : nat) (ms : list string) :
  Forall (member d) ms -> ms <> [] ->
  forall st e stk rest,
    beginsKey st ->
    (List.length stk + d <= 100)%nat ->
    json.scanAll (json.mkScanner st e (json.parseObjectKey :: stk) false)
                 (json.commaSep ms ++ String "}" rest)
    = json.scanAll (closed e stk) rest.
Proof.
  induction ms as [|m ms IH]; intros Hall Hne st e stk rest Hst Hfit;
    [congruence |].
  inversion Hall as [|? ? Hm Hms]; subst.
  destruct ms as [|m' ms'].
  - cbn [json.commaSep]. rewrite (Hm st e stk _ Hst Hfit).
    apply scan_end_object.
  - change (json.commaSep (m :: m' :: ms'))
      with (m ++ "," ++ json.commaSep (m' :: ms')).
    rewrite !append_assoc. rewrite (Hm st e stk _ Hst Hfit).
    change (json.scanAll
              (json.mkScanner json.stateBeginString e
                              (json.parseObjectKey :: stk) false)
              (json.commaSep (m' :: ms') ++ String "}" rest)
            = json.scanAll (closed e stk) rest).
    apply IH; [assumption | discriminate | now right | assumption].
Qed.

(** An object, from its opening brace. *)
Lemma scan_object (d : nat) (ms : list string) :
  Forall (member d) ms ->
  forall st e stk rest,
    beginsValue st ->
    (List.length stk + S d <= 100)%nat ->
    json.scanAll (json.mkScanner st e stk false)
                 (("{" ++ json.commaSep ms ++ "}") ++ rest)
    = json.scanAll (closed e stk) rest.
Proof.
  intros Hall st e stk rest Hst Hfit.
  change (("{" ++ json.commaSep ms ++ "}") ++ rest)
    with (String "{" ((json.commaSep ms ++ "}") ++ rest)).
  rewrite (scan_begin_object st e stk d _ Hst Hfit), append_assoc.
  destruct ms as [|m ms].
  - apply scan_empty_object.
  - apply (scan_members d); [assumption | discriminate | now left | lia].
Qed.

(** The elements of an array, up to the closing bracket. *)
Lemma scan_elements (d : nat) (vs : list string) :
  Forall (accepts d) vs -> vs <> [] ->
  forall st e stk rest,
    beginsValue st ->
    (List.length stk + d <= 100)%nat ->
    json.scanAll (json.mkScanner st e (json.parseArrayValue :: stk) false)
                 (json.commaSep vs ++ String "]" rest)
    = json.scanAll (closed e stk) rest.
Proof.
  induction vs as [|v vs IH]; intros Hall Hne st e stk rest Hst Hfit;
    [congruence |].
  inversion Hall as [|? ? Hv Hvs]; subst.
  destruct vs as [|v' vs'].
  - cbn [json.commaSep]. rewrite (Hv st e _ stk _ Hst Hfit).
    apply scan_end_array.
  - change (json.commaSep (v :: v' :: vs'))
      with (v ++ "," ++ json.commaSep (v' :: vs')).
    rewrite !append_assoc. rewrite (Hv st e _ stk _ Hst Hfit).
    change (json.scanAll
              (json.mkScanner json.stateBeginValue e
                              (json.parseArrayValue :: stk) false)
              (json.commaSep (v' :: vs') ++ String "]" rest)
            = json.scanAll (closed e stk) rest).
    apply IH; [assumption | discriminate | now left | assumption].
Qed.

Lemma accepts_le (d d' : nat) (v : string) :
  accepts d v -> (d <= d')%nat -> accepts d' v.
Proof.
  intros H Hle st e p stk rest Hst Hfit. apply H; [assumption | lia].
Qed.

Lemma accepts_string (d : nat) (s : string) : accepts d (json.appendString s).
Proof.
  intros st e p stk rest Hst _. now apply scan_literal_value.
Qed.

Lemma accepts_null (d : nat) : accepts d "null".
Proof.
  intros st e p stk rest [-> | ->] _; reflexivity.
Qed.

Lemma accepts_stringSlice (d : nat) (l : slice string) :
  accepts (S (S d)) (json.stringSlice l).
Proof.
  destruct l as [|l]; [apply accepts_null |].
  intros st e p stk rest Hst Hfit. unfold json.stringSlice.
  change (("[" ++ json.commaSep (map json.appendString l) ++ "]") ++ rest)
    with (String "[" ((json.commaSep (map json.appendString l) ++ "]") ++ rest)).
  rewrite (scan_begin_array st e (p :: stk) d _ Hst) by (simpl; lia).
  rewrite append_assoc.
  destruct l as [|x l].
  - apply scan_empty_array.
  - apply (scan_elements d); [| discriminate | now right | simpl; lia].
    apply Forall_forall. intros v Hv. apply in_map_iff in Hv as (y & <- & _).
    apply accepts_string.
Qed.

Lemma member_entry (d : nat) (kv : string * string) :
  member d (json.appendString (fst kv) ++ ":" ++ json.appendString (snd kv)).
Proof.
  intros st e stk rest Hst _.
  rewrite !append_assoc.
  rewrite (scan_literal_key st _ e _ _ Hst).
  change (json.scanAll
            (json.mkScanner json.stateBeginValue e
                            (json.parseObjectValue :: stk) false)
            (json.appendString (snd kv) ++ rest)
          = json.scanAll (endValue e (json.parseObjectValue :: stk)) rest).
  apply scan_literal_value. now left.
Qed.

Lemma accepts_stringMap (d : nat) (m : gomap) :
  accepts (S (S d)) (json.stringMap m).
Proof.
  destruct m as [|l]; [apply accepts_null |].
  intros st e p stk rest Hst Hfit. unfold json.stringMap.
  rewrite (scan_object d); [reflexivity | | assumption | simpl; lia].
  apply Forall_forall. intros v Hv. apply in_map_iff in Hv as (kv & <- & _).
  apply member_entry.
Qed.

Lemma member_field (d : nat) (f : string * string) :
  allSafe (fst f) = true -> accepts d (snd f) ->
  member d (String dquote (fst f ++ String dquote ":") ++ snd f).
Proof.
  intros Hname Hv st e stk rest Hst Hfit.
  change ((String dquote (fst f ++ String dquote ":") ++ snd f) ++ rest)
    with (String dquote (((fst f ++ String dquote ":") ++ snd f) ++ rest)).
  rewrite (scan_open_key st e _ _ Hst), !append_assoc.
  rewrite (scan_safe_string _ _ _ _ Hname).
  change (json.scanAll
            (json.mkScanner json.stateBeginValue e
                            (json.parseObjectValue :: stk) false)
            (snd f ++ rest)
          = json.scanAll (endValue e (json.parseObjectValue :: stk)) rest).
  apply Hv; [now left | assumption].
Qed.

Lemma object_members (d : nat) (fields : list (string * string)) :
  fieldsOK d fields ->
  Forall (member d)
         (map (fun f => String dquote (fst f ++ String dquote ":") ++ snd f) fields).
Proof.
  intros H. apply Forall_forall. intros m Hm.
  apply in_map_iff in Hm as (f & <- & Hf).
  unfold fieldsOK in H. rewrite Forall_forall in H.
  destruct (H f Hf). now apply member_field.
Qed.

Lemma accepts_object (d : nat) (fields : list (string * string)) :
  fieldsOK d fields -> accepts (S (S d)) (json.object fields).
Proof.
  intros H st e p stk rest Hst Hfit. unfold json.object.
  rewrite (scan_object d); [reflexivity | | assumption | simpl; lia].
  now apply object_members.
Qed.

Lemma valid_object (d : nat) (fields : list (string * string)) :
  fieldsOK d fields -> (d <= 90)%nat ->
  json.checkValid (json.object fields) = true.
Proof.
  intros H Hd. unfold json.checkValid, json.object.
  rewrite <- (append_nil_r ("{" ++ _)).
  unfold json.reset.
  rewrite (scan_object d); [reflexivity | | now left | simpl; lia].
  now apply object_members.
Qed.

End Scanning.

(** Checks the fields of a struct one by one. *)
Ltac check_fields :=
  unfold fieldsOK;
  repeat (apply Forall_cons;
          [split; [reflexivity
                  | first [ apply accepts_string
                          | eassumption
                          | eapply accepts_le; [eassumption | lia] ] ]
          |]);
  apply Forall_nil.

Section Payloads.

Lemma accepts_table (t : Table) : accepts 2 (Marshal.table t).
Proof. apply (accepts_object 0). check_fields. Qed.

Lemma accepts_customRootFields (f : CustomRootFields) :
  accepts 2 (Marshal.customRootFields f).
Proof. apply (accepts_object 0). check_fields. Qed.

Lemma accepts_configuration (c : Configuration) :
  accepts 4 (Marshal.configuration c).
Proof.
  pose proof (accepts_customRootFields (CustomRootFields_ c)).
  pose proof (accepts_stringMap 0 (CustomColumnNames c)).
  apply (accepts_object 2). check_fields.
Qed.

Lemma accepts_pgTrackTableArgs (a : PgTrackTableArgs) :
  accepts 6 (Marshal.pgTrackTableArgs a).
Proof.
  pose proof (accepts_table (PgTrackTableArgs_Table a)).
  pose proof (accepts_configuration (PgTrackTableArgs_Configuration a)).
  apply (accepts_object 4). check_fields.
Qed.

Lemma accepts_objectUsing (u : CreateObjectRelationshipUsing) :
  accepts 4 (Marshal.objectUsing u).
Proof.
  pose proof (accepts_stringSlice 0 (ObjectUsing_ForeignKeyConstraintOn u)).
  apply (accepts_object 2). check_fields.
Qed.

Lemma accepts_objectArgs (a : CreateObjectRelationshipArgs) :
  accepts 6 (Marshal.objectArgs a).
Proof.
  pose proof (accepts_table (ObjectArgs_Table a)).
  pose proof (accepts_objectUsing (ObjectArgs_Using a)).
  apply (accepts_object 4). check_fields.
Qed.

Lemma accepts_foreignKeyConstraintOn (f : ForeignKeyConstraintOn) :
  accepts 4 (Marshal.foreignKeyConstraintOn f).
Proof.
  pose proof (accepts_table (ForeignKeyConstraintOn_Table f)).
  pose proof (accepts_stringSlice 0 (ForeignKeyConstraintOn_Columns f)).
  apply (accepts_object 2). check_fields.
Qed.

Lemma accepts_arrayUsing (u : CreateArrayRelationshipUsing) :
  accepts 6 (Marshal.arrayUsing u).
Proof.
  pose proof (accepts_foreignKeyConstraintOn (ArrayUsing_ForeignKeyConstraintOn u)).
  apply (accepts_object 4). check_fields.
Qed.

Lemma accepts_arrayArgs (a : CreateArrayRelationshipArgs) :
  accepts 8 (Marshal.arrayArgs a).
Proof.
  pose proof (accepts_table (ArrayArgs_Table a)).
  pose proof (accepts_arrayUsing (ArrayArgs_Using a)).
  apply (accepts_object 6). check_fields.
Qed.

End Payloads.

(** X12.  Every request body is a JSON text.  Whatever strings, slices
    and maps an operation holds -- quotes, control bytes, bytes that are
    not UTF-8, nil slices and nil maps included -- the body [postMetadata]
    puts in its request is accepted by the JSON scanner. *)
Theorem request_body_valid (url secret : string) (data : Operation) :
  json.checkValid (http.Body (@requestFor url secret data)) = true.
Proof.
  unfold requestFor. cbn [http.Body].
  destruct data as [t | r | r]; cbn [json_Marshal fst].
  - pose proof (accepts_pgTrackTableArgs (TrackTable_Args t)).
    apply (valid_object 6); [check_fields | lia].
  - pose proof (accepts_objectArgs (CreateObjectRelationship_Args r)).
    apply (valid_object 6); [check_fields | lia].
  - pose proof (accepts_arrayArgs (CreateArrayRelationship_Args r)).
    apply (valid_object 8); [check_fields | lia].
Qed.

(** X13.  When the endpoint answers a submission, [postMetadata] returns
    nil in exactly two cases: the status is 200, or [json.Unmarshal]
    decodes the body without error into a struct whose code is
    [already-tracked] or [already-exists]. *)
Theorem postMetadata_nil_iff {R : Runtime} (url secret : string)
        (op : Operation) (st st' : State R) (resp : http.Response) :
  replies url secret op st resp st' ->
  (postMetadata url secret op st = (Return None, st') <->
   http.StatusCode resp = 200%Z \/
   exists r, json_Unmarshal (http.ResponseBody resp) None = (Some r, None) /\
             (Code r = "already-tracked" \/ Code r = "already-exists")).
Proof.
  intros Hrep. rewrite (replies_postMetadata _ _ _ _ _ _ Hrep).
  rewrite <- (checkResponse_nil_iff resp). split.
  - now intros [= ->].
  - now intros ->.
Qed.

Lemma postMetadata_nil_iff_witness :
  let script := [reply 409 "{'code':'already-exists','error':'relationship exists'}"] in
  @postMetadata (scripted script) exampleURL exampleSecret
     (OpCreateArrayRelationship arrRelationship) (start _)
  = (Return None,
     after _ 1 [(tenSecondClient,
                 requestFor exampleURL exampleSecret
                            (OpCreateArrayRelationship arrRelationship))] []).
Proof.
  intros script.
  apply (@postMetadata_nil_iff (scripted script) exampleURL exampleSecret
           (OpCreateArrayRelationship arrRelationship) (start _) _
           {| http.StatusCode := 409;
              http.ResponseBody :=
                q "{'code':'already-exists','error':'relationship exists'}" |}).
  - repeat split.
  - right. eexists. split; [vm_compute; reflexivity |]. now right.
Defined.

(** X14.  When the endpoint answers a submission, [postMetadata] panics
    in exactly one case: the status is not 200 and [json.Unmarshal]
    decodes the body without error to the nil pointer. *)
Theorem postMetadata_panic_iff {R : Runtime} (url secret : string)
        (op : Operation) (st st' : State R) (resp : http.Response) :
  replies url secret op st resp st' ->
  ((exists msg, postMetadata url secret op st = (Panic msg, st')) <->
   http.StatusCode resp <> 200%Z /\
   json_Unmarshal (http.ResponseBody resp) None = (None, None)).
Proof.
  intros Hrep. rewrite (replies_postMetadata _ _ _ _ _ _ Hrep).
  rewrite <- (checkResponse_panic_iff resp). split.
  - intros [msg [= Hm]]. now exists msg.
  - intros [msg Hm]. exists msg. now rewrite Hm.
Qed.

Lemma postMetadata_panic_iff_witness :
  let script := [reply 500 "null"] in
  exists msg,
    @postMetadata (scripted script) exampleURL exampleSecret
       (OpTrackTable filesTable) (start _)
    = (Panic msg,
       after _ 1 [(tenSecondClient,
                   requestFor exampleURL exampleSecret (OpTrackTable filesTable))]
             []).
Proof.
  intros script.
  apply (@postMetadata_panic_iff (scripted script) exampleURL exampleSecret
           (OpTrackTable filesTable) (start _) _
           {| http.StatusCode := 500; http.ResponseBody := "null" |}).
  - repeat split.
  - split; [discriminate | reflexivity].
Defined.
